(** * Resolvers of the product catalogue (saleor/graphql/product/types/products.py)

    A shallow embedding of the GraphQL resolver layer for products, variants,
    categories and images, and the properties its specification states about
    it: permission gating, inventory sentinels, deferred pricing, default
    resolution through the channel context, and channel defaulting.

    Resolvers are embedded as functions into a small monad that records the
    keys handed to the batch loaders and the exception a resolver may raise;
    what a resolver returns is a promise, a tree of [then] continuations over
    loader results. *)

From stdpp Require Import base option list strings pretty gmap.

Local Open Scope Z_scope.

(** ** Python values and truthiness *)

Module Py.

(** The scalar values a resolver hands back for a plain model attribute.
    [PyInstance] stands for a model instance, named by its model and primary
    key. *)
Inductive value : Type :=
| PyNone
| PyBool (b : bool)
| PyInt (z : Z)
| PyStr (s : string)
| PyMoney (amount : Z) (currency : string)
| PyInstance (model : string) (pk : Z).

#[global] Instance value_eq_dec : EqDecision value.
Proof. solve_decision. Defined.

(** [bool(x)]: the test behind [if x] and [not x]. *)
Class Truthy (A : Type) := truthy : A → bool.
#[global] Hint Mode Truthy ! : typeclass_instances.

#[global] Instance truthy_bool : Truthy bool := λ b, b.
#[global] Instance truthy_Z : Truthy Z := λ z, negb (z =? 0).
#[global] Instance truthy_string : Truthy string :=
  λ s, match s with EmptyString => false | String _ _ => true end.
#[global] Instance truthy_list {A} : Truthy (list A) :=
  λ l, match l with [] => false | _ :: _ => true end.
(** An optional argument or attribute: [None] is falsy, anything else has the
    truth value of what it holds. *)
#[global] Instance truthy_option {A} `{Truthy A} : Truthy (option A) :=
  λ o, match o with None => false | Some a => truthy a end.

(** Objects that answer [getattr(obj, name)]: [None] when the attribute does
    not exist on the object. *)
Class Object (T : Type) := {
  lookup_attr : T → string → option value;
  as_value : T → value;
}.

(** [getattr(obj, name, default)]. *)
Definition getattr {T} `{Object T} (obj : T) (name : string) (default_value : value) : value :=
  from_option id default_value (lookup_attr obj name).

End Py.
Export Py.

(** ** Errors a resolver can fail with *)

(** The permission enumerations of [core.permissions]; the catalogue only
    names [ProductPermissions.MANAGE_PRODUCTS]. *)
Inductive Permission : Type :=
| MANAGE_PRODUCTS
| OtherPermission (codename : string).

#[global] Instance Permission_eq_dec : EqDecision Permission.
Proof. solve_decision. Defined.

Inductive Error : Type :=
| PermissionDenied (missing : Permission)
| GraphQLError (message : string)
| UpstreamFailure (message : string).

#[global] Instance Error_eq_dec : EqDecision Error.
Proof. solve_decision. Defined.

(** ** Value types of the API ([prices], [core.types]) *)

Module prices.
(** Amounts are decimal in the code; here they are scaled to the minor unit
    of the currency. *)
Record Money := { amount : Z; currency : string }.
Record TaxedMoney := { net : Money; gross : Money }.
Record MoneyRange := { start : Money; stop : Money }.
Record TaxedMoneyRange := { taxed_start : TaxedMoney; taxed_stop : TaxedMoney }.

#[global] Instance Money_eq_dec : EqDecision Money.
Proof. solve_decision. Defined.
#[global] Instance TaxedMoney_eq_dec : EqDecision TaxedMoney.
Proof. solve_decision. Defined.

Definition money_value (m : option Money) : Py.value :=
  match m with
  | None => PyNone
  | Some m => PyMoney (amount m) (currency m)
  end.
End prices.
Export (hints) prices.
Abbreviation Money := prices.Money.
Abbreviation TaxedMoney := prices.TaxedMoney.
Abbreviation MoneyRange := prices.MoneyRange.
Abbreviation TaxedMoneyRange := prices.TaxedMoneyRange.

Definition Country := string.
Definition Date := Z.

(** ** The persisted records ([product.models]) *)

Module models.

(** A Django model instance has a primary key. *)
Class Model (T : Type) := pk : T → Z.
#[global] Hint Mode Model ! : typeclass_instances.

Module ProductVariant.
Record t := {
  id : Z;
  name : string;
  sku : string;
  product_id : Z;
  track_inventory : bool;
  cost_price : option Money;
  price : option Money;
  (* reverse one-to-one relation: the primary key of the digital content *)
  digital_content : option Z;
  private_metadata : gmap string string;
  (* attributes attached to the instance by a query annotation, such as
     [quantity_ordered] in the sales report *)
  annotations : gmap string Py.value;
}.
#[global] Instance variant_model : Model t := id.

Definition lookup (v : t) (attname : string) : option Py.value :=
  if decide (attname = "id") then Some (PyInt (id v))
  else if decide (attname = "pk") then Some (PyInt (pk v))
  else if decide (attname = "name") then Some (PyStr (name v))
  else if decide (attname = "sku") then Some (PyStr (sku v))
  else if decide (attname = "product_id") then Some (PyInt (product_id v))
  else if decide (attname = "product") then Some (PyInstance "Product" (product_id v))
  else if decide (attname = "track_inventory") then Some (PyBool (track_inventory v))
  else if decide (attname = "cost_price") then Some (prices.money_value (cost_price v))
  else if decide (attname = "price") then Some (prices.money_value (price v))
  else if decide (attname = "digital_content") then
    PyInstance "DigitalContent" <$> digital_content v
  else annotations v !! attname.

#[global] Instance variant_object : Py.Object t :=
  {| Py.lookup_attr := lookup; Py.as_value v := PyInstance "ProductVariant" (pk v) |}.
#[global] Instance variant_eq_dec : EqDecision t.
Proof. solve_decision. Defined.
End ProductVariant.

Module Product.
Record t := {
  id : Z;
  name : string;
  slug : string;
  category_id : option Z;
  private_metadata : gmap string string;
  annotations : gmap string Py.value;
}.
#[global] Instance product_model : Model t := id.

Definition lookup (p : t) (attname : string) : option Py.value :=
  if decide (attname = "id") then Some (PyInt (id p))
  else if decide (attname = "pk") then Some (PyInt (pk p))
  else if decide (attname = "name") then Some (PyStr (name p))
  else if decide (attname = "slug") then Some (PyStr (slug p))
  else if decide (attname = "category_id") then
    Some (from_option PyInt PyNone (category_id p))
  else if decide (attname = "category") then
    Some (from_option (PyInstance "Category") PyNone (category_id p))
  else annotations p !! attname.

#[global] Instance product_object : Py.Object t :=
  {| Py.lookup_attr := lookup; Py.as_value p := PyInstance "Product" (pk p) |}.
#[global] Instance product_eq_dec : EqDecision t.
Proof. solve_decision. Defined.
End Product.

Module Channel.
Record t := { id : Z; slug : string }.
End Channel.

Module ProductChannelListing.
Record t := {
  id : Z;
  product_id : Z;
  channel_slug : string;
  is_published : bool;
}.
End ProductChannelListing.

Module Collection.
Record t := { id : Z; name : string; slug : string }.
End Collection.

Module Stock.
Record t := { id : Z; warehouse_id : Z; product_variant_id : Z; quantity : Z }.
End Stock.

(** Categories form a tree; a category carries its [children] relation. *)
Module Category.
#[local] Unset Elimination Schemes.
Inductive t := Build_t (id : Z) (slug : string) (children : list t).
#[local] Set Elimination Schemes.
Definition id (c : t) : Z := let 'Build_t i _ _ := c in i.
Definition slug (c : t) : string := let 'Build_t _ s _ := c in s.
Definition children (c : t) : list t := let 'Build_t _ _ ch := c in ch.

(** [get_descendants(include_self=True)]: the category, then the descendants
    of each child in turn. *)
Fixpoint subtree (c : t) : list t :=
  match c with
  | Build_t _ _ ch => c :: (ch ≫= subtree)
  end.

Definition get_descendants (c : t) (include_self : bool) : list t :=
  if include_self then subtree c else children c ≫= subtree.
End Category.

Module ProductImage.
Record ImageFile := { storage_name : string; url : string }.
Record t := { id : Z; image : ImageFile; alt : string; sort_order : Z }.
End ProductImage.

End models.

(** ** Batch loaders and deferred values *)

Record DiscountInfo := { sale_id : Z; discounted_product_ids : list Z }.

(** A key handed to one of the per-request batch loaders; the constructor
    names the loader class. *)
Inductive LoadKey : Type :=
| AvailableQuantityByProductVariantIdAndCountryCodeLoader
    (variant_id : Z) (country_code : option Country)
| ProductByIdLoader (product_id : Z)
| ProductChannelListingByProductIdAndChanneSlugLoader
    (product_id : Z) (channel_slug : string)
| ProductChannelListingByProductIdLoader (product_id : Z)
| ProductVariantsByProductIdLoader (product_id : Z)
| CollectionsByProductIdLoader (product_id : Z)
| DiscountsByDateTimeLoader (request_time : Z).

#[global] Instance LoadKey_eq_dec : EqDecision LoadKey.
Proof. solve_decision. Defined.

(** What each loader resolves a key to. *)
Definition loaded (k : LoadKey) : Type :=
  match k with
  | AvailableQuantityByProductVariantIdAndCountryCodeLoader _ _ => Z
  | ProductByIdLoader _ => option models.Product.t
  | ProductChannelListingByProductIdAndChanneSlugLoader _ _ =>
      option models.ProductChannelListing.t
  | ProductChannelListingByProductIdLoader _ => list models.ProductChannelListing.t
  | ProductVariantsByProductIdLoader _ => list models.ProductVariant.t
  | CollectionsByProductIdLoader _ => list models.Collection.t
  | DiscountsByDateTimeLoader _ => list DiscountInfo
  end.

(** A deferred value: either a value already at hand, or the promise of a
    loader key followed by the continuation registered with [then]. *)
Inductive Promise (A : Type) : Type :=
| Value (a : A)
| Then (k : LoadKey) (callback : loaded k → Promise A).
Arguments Value {A} a.
Arguments Then {A} k callback.

(** [promise.then(f)], with the promise returned by [f] flattened. *)
Fixpoint then_ {A B} (p : Promise A) (f : A → Promise B) : Promise B :=
  match p with
  | Value a => f a
  | Then k callback => Then k (λ v, then_ (callback v) f)
  end.

Inductive Settled (A : Type) : Type :=
| Fulfilled (a : A)
| Rejected (e : Error).
Arguments Fulfilled {A} a.
Arguments Rejected {A} e.

(** The persistence layer behind the loaders: what the batched fetch yields
    for each key, a value or the failure of the batch. *)
Definition Backend := ∀ k : LoadKey, Settled (loaded k).

(** Running a promise to its terminal state. *)
Fixpoint settle {A} (fetch : Backend) (p : Promise A) : Settled A :=
  match p with
  | Value a => Fulfilled a
  | Then k callback =>
      match fetch k with
      | Fulfilled v => settle fetch (callback v)
      | Rejected e => Rejected e
      end
  end.

(** The keys whose values the promise waited for, in the order it did. *)
Fixpoint awaited {A} (fetch : Backend) (p : Promise A) : list LoadKey :=
  match p with
  | Value _ => []
  | Then k callback =>
      k :: match fetch k with
           | Fulfilled v => awaited fetch (callback v)
           | Rejected _ => []
           end
  end.

(** ** The resolver monad *)

(** One call of a resolver: the keys it handed to loaders while it ran, and
    what it returned or raised. *)
Record Resolution (A : Type) := {
  issued : list LoadKey;
  outcome : Error + A;
}.
Arguments issued {A} r.
Arguments outcome {A} r.
Arguments Build_Resolution {A} issued outcome.

Definition returns {A} (a : A) : Resolution A :=
  {| issued := []; outcome := inr a |}.

Definition raises {A} (e : Error) : Resolution A :=
  {| issued := []; outcome := inl e |}.

(** [Loader(context).load(key)]: queues the key and hands back its promise. *)
Definition load (k : LoadKey) : Resolution (Promise (loaded k)) :=
  {| issued := [k]; outcome := inr (Then k Value) |}.

Definition and_then {A B} (m : Resolution A) (f : A → Resolution B) : Resolution B :=
  match outcome m with
  | inl e => {| issued := issued m; outcome := inl e |}
  | inr a => {| issued := issued m ++ issued (f a); outcome := outcome (f a) |}
  end.

#[global] Instance Resolution_ret : MRet Resolution := @returns.
#[global] Instance Resolution_bind : MBind Resolution := λ A B f m, and_then m f.

(** What the field comes to once the loaders have fetched: the value of the
    returned promise, or the failure of the resolver or of a batch. *)
Definition resolves_to {A} (fetch : Backend) (r : Resolution (Promise A)) : Settled A :=
  match outcome r with
  | inl e => Rejected e
  | inr p => settle fetch p
  end.

(** ** The request *)

Record Requestor := { effective_permissions : list Permission }.

Definition has_perm (r : Requestor) (perm : Permission) : bool :=
  bool_decide (perm ∈ effective_permissions r).

Record PluginsManager := { active_plugins : list string }.

Record RequestContext := {
  user : Requestor;
  country : Country;
  currency : string;
  request_time : Z;
  plugins : PluginsManager;
}.

Record ResolveInfo := { context : RequestContext }.

(** ** [ChannelContext]: a record and the channel it is asked about *)

Record ChannelContext (T : Type) := {
  node : T;
  channel_slug : option string;
}.
Arguments node {T} c.
Arguments channel_slug {T} c.
Arguments Build_ChannelContext {T} node channel_slug.

Record ChannelQsContext (T : Type) := {
  qs : list T;
  qs_channel_slug : string;
}.
Arguments qs {T} c.
Arguments qs_channel_slug {T} c.
Arguments Build_ChannelQsContext {T} qs qs_channel_slug.

(** The rows the resolvers query directly, outside the loaders. *)
Record Database := {
  products : list models.Product.t;
  product_channel_listings : list models.ProductChannelListing.t;
  default_channel : option models.Channel.t;
}.

(** ** Collaborators imported by the module *)

Inductive ReportingPeriod : Type := TODAY | THIS_MONTH.

Module availability.
(** Modelled from the spec: the dataclasses of [product.utils.availability],
    whose source is not part of this development; their fields are the pricing snapshot the
    specification lists (on-sale flag, discount, discounted and undiscounted
    price or price range, local-currency equivalents), under the names of the
    fields of [VariantPricingInfo] and [ProductPricingInfo] they are poured
    into. *)
Record VariantAvailability := {
  on_sale : bool;
  price : TaxedMoney;
  price_undiscounted : TaxedMoney;
  discount : option TaxedMoney;
  price_local_currency : option TaxedMoney;
  discount_local_currency : option TaxedMoney;
}.
End availability.

Module product_availability.
(** Modelled from the spec: the product-level dataclass of
    [product.utils.availability], as above with price ranges. *)
Record ProductAvailability := {
  on_sale : bool;
  price_range : option TaxedMoneyRange;
  price_range_undiscounted : option TaxedMoneyRange;
  discount : option TaxedMoney;
  price_range_local_currency : option TaxedMoneyRange;
  discount_local_currency : option TaxedMoney;
}.
End product_availability.

Class Settings := {
  MAX_CHECKOUT_LINE_QUANTITY : Z;
}.

(** [product.utils.availability] and [product.utils.costs]. *)
Class PricingService := {
  get_variant_availability :
    models.ProductVariant.t → option models.Product.t →
    option models.ProductChannelListing.t → list models.Collection.t →
    list DiscountInfo → Country → string → PluginsManager →
    availability.VariantAvailability;
  get_product_availability :
    models.Product.t → option models.ProductChannelListing.t →
    list models.ProductVariant.t → list models.Collection.t →
    list DiscountInfo → Country → string → PluginsManager →
    product_availability.ProductAvailability;
  get_margin_for_variant : models.ProductVariant.t → option Z;
  get_product_costs_data : models.Product.t → MoneyRange * (Z * Z);
}.

(** [warehouse.availability] and the stock manager of a variant. *)
Class WarehouseService := {
  get_available_quantity : models.ProductVariant.t → Country → Z;
  get_quantity_allocated : models.ProductVariant.t → Country → Z;
  is_product_in_stock : models.Product.t → Country → bool;
  stocks : models.ProductVariant.t → list models.Stock.t;
  for_country : Country → list models.Stock.t → list models.Stock.t;
  annotate_available_quantity : list models.Stock.t → list (models.Stock.t * Z);
}.

(** [product.utils.calculate_revenue_for_variant] and
    [utils.filters.reporting_period_to_date]. *)
Class ReportingService := {
  reporting_period_to_date : ReportingPeriod → Date;
  calculate_revenue_for_variant : models.ProductVariant.t → Date → TaxedMoney;
}.

(** [meta.deprecated.resolvers.resolve_private_meta], on the private metadata
    of the record it is given. *)
Class MetadataStore := {
  private_meta_of : gmap string string → list (string * list (string * string));
}.

(** Thumbnail rendering and the request's [build_absolute_uri]. *)
Class ImageService := {
  get_thumbnail : models.ProductImage.ImageFile → Z → string → string;
  build_absolute_uri : RequestContext → string → string;
}.

Class ObjectWithMetadata (T : Type) := private_metadata : T → gmap string string.
#[global] Hint Mode ObjectWithMetadata ! : typeclass_instances.
#[global] Instance variant_with_metadata : ObjectWithMetadata models.ProductVariant.t :=
  models.ProductVariant.private_metadata.
#[global] Instance product_with_metadata : ObjectWithMetadata models.Product.t :=
  models.Product.private_metadata.

Definition resolve_private_meta {metadata_store : MetadataStore} {T} `{ObjectWithMetadata T}
    (root : T) (_info : ResolveInfo) : list (string * list (string * string)) :=
  private_meta_of (private_metadata root).

(** Modelled from the spec: the decorator [permission_required] of
    [graphql/decorators.py], whose source is not part of this development. Before the
    wrapped resolver is invoked it checks that the requester holds the
    declared permission; if not, resolution fails with an authorization error
    naming the missing permission, otherwise it delegates to the wrapped
    resolver transparently. *)
Definition permission_required {Root A : Type} (perm : Permission)
    (resolver : Root → ResolveInfo → Resolution A)
    : Root → ResolveInfo → Resolution A :=
  λ root info,
    if has_perm (user (context info)) perm then resolver root info
    else raises (PermissionDenied perm).

(** Modelled from the spec: [get_default_channel_or_graphql_error] of
    [graphql/channel/utils.py], whose source is not part of this development: an explicit
    lookup of the configured default channel that fails loudly when none is
    configured. *)
Definition get_default_channel_or_graphql_error (db : Database) : Resolution models.Channel.t :=
  match default_channel db with
  | Some channel => returns channel
  | None => raises (GraphQLError "No default channel is configured.")
  end.

(** Modelled from the spec: the manager method [Product.objects.published] of
    [product/models.py], whose source is not part of this development: the products
    published in the channel, one row for each channel listing of the product
    that publishes it there. *)
Definition published (db : Database) (channel_slug : string) : list models.Product.t :=
  p ← products db;
  l ← product_channel_listings db;
  if decide (models.ProductChannelListing.product_id l = models.Product.id p
             ∧ models.ProductChannelListing.channel_slug l = channel_slug
             ∧ models.ProductChannelListing.is_published l = true)
  then [p] else [].

(** [graphene.types.resolver]: the stock default resolver reads the named
    attribute off the root object, falling back to the default value. *)
Module graphene.
Definition attr_resolver {T} `{Py.Object T} (attname : string) (default_value : Py.value)
    (root : T) (_info : ResolveInfo) : Py.value :=
  Py.getattr root attname default_value.
Definition get_default_resolver {T} `{Py.Object T} := @attr_resolver T _.

End graphene.

(** ** The object types *)

Module Margin.
Record t := { start : Z; stop : Z }.
End Margin.

(** The pricing object types. An instance is built from the keyword expansion
    of [asdict(availability)]: each field is filled by name from the
    dataclass. *)
Module VariantPricingInfo.
Record t := {
  on_sale : bool;
  discount : option TaxedMoney;
  discount_local_currency : option TaxedMoney;
  price : TaxedMoney;
  price_undiscounted : TaxedMoney;
  price_local_currency : option TaxedMoney;
}.
Definition of_dataclass (a : availability.VariantAvailability) : t := {|
  on_sale := availability.on_sale a;
  discount := availability.discount a;
  discount_local_currency := availability.discount_local_currency a;
  price := availability.price a;
  price_undiscounted := availability.price_undiscounted a;
  price_local_currency := availability.price_local_currency a;
|}.
End VariantPricingInfo.

Module ProductPricingInfo.
Record t := {
  on_sale : bool;
  discount : option TaxedMoney;
  discount_local_currency : option TaxedMoney;
  price_range : option TaxedMoneyRange;
  price_range_undiscounted : option TaxedMoneyRange;
  price_range_local_currency : option TaxedMoneyRange;
}.
Definition of_dataclass (a : product_availability.ProductAvailability) : t := {|
  on_sale := product_availability.on_sale a;
  discount := product_availability.discount a;
  discount_local_currency := product_availability.discount_local_currency a;
  price_range := product_availability.price_range a;
  price_range_undiscounted := product_availability.price_range_undiscounted a;
  price_range_local_currency := product_availability.price_range_local_currency a;
|}.
End ProductPricingInfo.

Module ChannelContextType.
Section ChannelContextType.
Context {T : Type} {object : Py.Object T} {model : models.Model T}.

Definition resolver_with_context (attname : string) (default_value : Py.value)
    (root : ChannelContext T) (info : ResolveInfo) : Py.value :=
  let resolver := graphene.get_default_resolver in
  resolver attname default_value (node root) info.

Definition resolve_id (root : ChannelContext T) (_info : ResolveInfo) : Z :=
  models.pk (node root).



End ChannelContextType.
End ChannelContextType.

Module ProductVariant.
Abbreviation Root := (ChannelContext models.ProductVariant.t).

Section ProductVariant.
Context {settings : Settings} {pricing_service : PricingService}
  {warehouse_service : WarehouseService} {reporting_service : ReportingService}
  {metadata_store : MetadataStore}.

(** The resolvers as written under their [permission_required] decorator. *)
Definition wrapped_resolve_stocks (country_code : option Country)
    (root : Root) (info : ResolveInfo) : Resolution (list (models.Stock.t * Z)) :=
  if negb (truthy country_code) then
    returns (annotate_available_quantity (stocks (node root)))
  else
    returns (annotate_available_quantity
               (for_country (default "" country_code) (stocks (node root)))).

Definition wrapped_resolve_digital_content (root : Root) (_info : ResolveInfo)
    : Resolution Py.value :=
  returns (Py.getattr (node root) "digital_content" PyNone).

Definition wrapped_resolve_margin (root : Root) (_info : ResolveInfo)
    : Resolution (option Z) :=
  returns (get_margin_for_variant (node root)).

Definition wrapped_resolve_cost_price (root : Root) (_info : ResolveInfo)
    : Resolution (option Money) :=
  returns (models.ProductVariant.cost_price (node root)).

Definition wrapped_resolve_price (root : Root) (_info : ResolveInfo)
    : Resolution (option Money) :=
  returns (models.ProductVariant.price (node root)).

Definition wrapped_resolve_quantity (root : Root) (info : ResolveInfo) : Resolution Z :=
  returns (get_available_quantity (node root) (country (context info))).

Definition wrapped_resolve_quantity_ordered (root : Root) (_info : ResolveInfo)
    : Resolution Py.value :=
  returns (Py.getattr (node root) "quantity_ordered" PyNone).

Definition wrapped_resolve_quantity_allocated (root : Root) (info : ResolveInfo)
    : Resolution Z :=
  let country := country (context info) in
  returns (get_quantity_allocated (node root) country).

Definition wrapped_resolve_revenue (period : ReportingPeriod)
    (root : Root) (_info : ResolveInfo) : Resolution TaxedMoney :=
  let start_date := reporting_period_to_date period in
  returns (calculate_revenue_for_variant (node root) start_date).

Definition wrapped_resolve_private_meta (root : Root) (_info : ResolveInfo)
    : Resolution (list (string * list (string * string))) :=
  returns (resolve_private_meta (node root) _info).

(** The resolvers of the type. *)
Definition resolve_stocks (root : Root) (info : ResolveInfo) (country_code : option Country) :=
  permission_required MANAGE_PRODUCTS (wrapped_resolve_stocks country_code) root info.

Definition resolve_quantity_available (root : Root) (info : ResolveInfo)
    (country_code : option Country) : Resolution (Promise Z) :=
  if negb (models.ProductVariant.track_inventory (node root)) then
    returns (Value MAX_CHECKOUT_LINE_QUANTITY)
  else
    load (AvailableQuantityByProductVariantIdAndCountryCodeLoader
            (models.ProductVariant.id (node root)) country_code).

Definition resolve_digital_content :=
  permission_required MANAGE_PRODUCTS wrapped_resolve_digital_content.

Definition resolve_stock_quantity (root : Root) (info : ResolveInfo)
    : Resolution (Promise Z) :=
  if negb (models.ProductVariant.track_inventory (node root)) then
    returns (Value MAX_CHECKOUT_LINE_QUANTITY)
  else
    load (AvailableQuantityByProductVariantIdAndCountryCodeLoader
            (models.ProductVariant.id (node root)) (Some (country (context info)))).

Definition resolve_margin := permission_required MANAGE_PRODUCTS wrapped_resolve_margin.

Definition resolve_cost_price :=
  permission_required MANAGE_PRODUCTS wrapped_resolve_cost_price.

Definition resolve_price := permission_required MANAGE_PRODUCTS wrapped_resolve_price.

Definition resolve_pricing (root : Root) (info : ResolveInfo)
    : Resolution (Promise (option VariantPricingInfo.t)) :=
  if negb (truthy (channel_slug root)) then returns (Value None)
  else
    (* past the test the slug is a non-empty string *)
    let channel_slug := default "" (channel_slug root) in
    let context := context info in
    product ← load (ProductByIdLoader (models.ProductVariant.product_id (node root)));
    channel_listing ←
      load (ProductChannelListingByProductIdAndChanneSlugLoader
              (models.ProductVariant.product_id (node root)) channel_slug);
    collections ←
      load (CollectionsByProductIdLoader (models.ProductVariant.product_id (node root)));
    let calculate_pricing_info discounts :=
      let calculate_pricing_with_product product :=
        let calculate_pricing_with_channel_listings channel_listing :=
          let calculate_pricing_with_collections collections :=
            let availability :=
              get_variant_availability (node root) product channel_listing collections
                discounts (country context) (currency context) (plugins context) in
            Value (Some (VariantPricingInfo.of_dataclass availability)) in
          then_ collections calculate_pricing_with_collections in
        then_ channel_listing calculate_pricing_with_channel_listings in
      then_ product calculate_pricing_with_product in
    discounts ← load (DiscountsByDateTimeLoader (request_time context));
    mret (then_ discounts calculate_pricing_info).

Definition is_variant_in_stock (available_quantity : Z) : bool :=
  bool_decide (available_quantity > 0).

Definition resolve_is_available (root : Root) (info : ResolveInfo)
    : Resolution (Promise bool) :=
  if negb (models.ProductVariant.track_inventory (node root)) then
    returns (Value true)
  else
    available ←
      load (AvailableQuantityByProductVariantIdAndCountryCodeLoader
              (models.ProductVariant.id (node root)) (Some (country (context info))));
    mret (then_ available (λ q, Value (is_variant_in_stock q))).

Definition resolve_quantity := permission_required MANAGE_PRODUCTS wrapped_resolve_quantity.

Definition resolve_quantity_ordered :=
  permission_required MANAGE_PRODUCTS wrapped_resolve_quantity_ordered.

Definition resolve_quantity_allocated :=
  permission_required MANAGE_PRODUCTS wrapped_resolve_quantity_allocated.

Definition resolve_revenue (root : Root) (info : ResolveInfo) (period : ReportingPeriod) :=
  permission_required MANAGE_PRODUCTS (wrapped_resolve_revenue period) root info.

Definition resolve_private_meta :=
  permission_required MANAGE_PRODUCTS wrapped_resolve_private_meta.

End ProductVariant.
End ProductVariant.

Module Product.
Abbreviation Root := (ChannelContext models.Product.t).

Section Product.
Context {pricing_service : PricingService} {warehouse_service : WarehouseService}
  {metadata_store : MetadataStore}.

Definition resolve_pricing (root : Root) (info : ResolveInfo)
    : Resolution (Promise (option ProductPricingInfo.t)) :=
  if negb (truthy (channel_slug root)) then returns (Value None)
  else
    let channel_slug := default "" (channel_slug root) in
    let context := context info in
    channel_listing ←
      load (ProductChannelListingByProductIdAndChanneSlugLoader
              (models.Product.id (node root)) channel_slug);
    variants ← load (ProductVariantsByProductIdLoader (models.Product.id (node root)));
    collections ← load (CollectionsByProductIdLoader (models.Product.id (node root)));
    let calculate_pricing_info discounts :=
      let calculate_pricing_with_channel_listings channel_listing :=
        let calculate_pricing_with_variants variants :=
          let calculate_pricing_with_collections collections :=
            let availability :=
              get_product_availability (node root) channel_listing variants collections
                discounts (country context) (currency context) (plugins context) in
            Value (Some (ProductPricingInfo.of_dataclass availability)) in
          then_ collections calculate_pricing_with_collections in
        then_ variants calculate_pricing_with_variants in
      then_ channel_listing calculate_pricing_with_channel_listings in
    discounts ← load (DiscountsByDateTimeLoader (request_time context));
    mret (then_ discounts calculate_pricing_info).

(** [ProductChannelListing.objects.filter(product=..., channel__slug=...).exists()] *)
Definition channel_listing_exists (db : Database) (product : models.Product.t)
    (channel_slug : string) : bool :=
  bool_decide (Exists
    (λ l, models.ProductChannelListing.product_id l = models.Product.id product
          ∧ models.ProductChannelListing.channel_slug l = channel_slug)
    (product_channel_listings db)).

Definition resolve_is_available (db : Database) (root : Root) (info : ResolveInfo)
    : Resolution (option bool) :=
  if negb (truthy (channel_slug root)) then returns None
  else
    let channel_slug := default "" (channel_slug root) in
    let country := country (context info) in
    let in_stock := is_product_in_stock (node root) country in
    let is_visible := channel_listing_exists db (node root) channel_slug in
    returns (Some (is_visible && in_stock)).

(** The resolvers as written under their [permission_required] decorator. *)
Definition wrapped_resolve_purchase_cost (root : Root) (_info : ResolveInfo)
    : Resolution MoneyRange :=
  let '(purchase_cost, _) := get_product_costs_data (node root) in
  returns purchase_cost.

Definition wrapped_resolve_margin (root : Root) (_info : ResolveInfo)
    : Resolution Margin.t :=
  let '(_, margin) := get_product_costs_data (node root) in
  returns {| Margin.start := margin.1; Margin.stop := margin.2 |}.

Definition wrapped_resolve_channel_listing (root : Root) (info : ResolveInfo)
    : Resolution (Promise (list models.ProductChannelListing.t)) :=
  load (ProductChannelListingByProductIdLoader (models.Product.id (node root))).

Definition wrapped_resolve_private_meta (root : Root) (_info : ResolveInfo)
    : Resolution (list (string * list (string * string))) :=
  returns (resolve_private_meta (node root) _info).

Definition resolve_purchase_cost :=
  permission_required MANAGE_PRODUCTS wrapped_resolve_purchase_cost.

Definition resolve_margin := permission_required MANAGE_PRODUCTS wrapped_resolve_margin.

Definition resolve_channel_listing :=
  permission_required MANAGE_PRODUCTS wrapped_resolve_channel_listing.

Definition resolve_private_meta :=
  permission_required MANAGE_PRODUCTS wrapped_resolve_private_meta.

End Product.
End Product.

Module Category.

(** [category__in=tree] *)
Definition category_in (tree : list models.Category.t) (p : models.Product.t) : Prop :=
  match models.Product.category_id p with
  | Some c => c ∈ models.Category.id <$> tree
  | None => False
  end.

#[global] Instance category_in_dec tree p : Decision (category_in tree p).
Proof. unfold category_in. destruct (models.Product.category_id p); apply _. Defined.

Definition resolve_products (db : Database) (root : models.Category.t)
    (_info : ResolveInfo) (channel : option string)
    : Resolution (ChannelQsContext models.Product.t) :=
  let tree := models.Category.get_descendants root true in
  channel ← match channel with
            | None =>
                default_channel ← get_default_channel_or_graphql_error db;
                mret (models.Channel.slug default_channel)
            | Some channel => returns channel
            end;
  let qs := published db channel in
  let qs := remove_dups (filter (category_in tree) qs) in
  mret {| qs := qs; qs_channel_slug := channel |}.

End Category.

Module ProductImage.
Section ProductImage.
Context {image_service : ImageService}.

Definition resolve_url (root : models.ProductImage.t) (info : ResolveInfo)
    (size : option Z) : Resolution string :=
  let url :=
    if truthy size then
      get_thumbnail (models.ProductImage.image root) (default 0 size) "thumbnail"
    else models.ProductImage.url (models.ProductImage.image root) in
  returns (build_absolute_uri (context info) url).

End ProductImage.
End ProductImage.

(** ** Vocabulary of the properties *)

(** A resolver behind the permission gate, next to the function it wraps.
    [Args] are the arguments of the field, [unit] when it has none. *)
Record GatedResolver := {
  field : string;
  Args : Type;
  Root : Type;
  Result : Type;
  resolver : Args → Root → ResolveInfo → Resolution Result;
  wrapped : Args → Root → ResolveInfo → Resolution Result;
}.

Section gated.
Context {pricing_service : PricingService} {warehouse_service : WarehouseService}
  {reporting_service : ReportingService} {metadata_store : MetadataStore}.

Definition variant_gated_resolvers : list GatedResolver := [
  {| field := "stocks";
     resolver := λ country_code root info,
       ProductVariant.resolve_stocks root info country_code;
     wrapped := ProductVariant.wrapped_resolve_stocks |};
  {| field := "digitalContent";
     resolver := λ _ : unit, ProductVariant.resolve_digital_content;
     wrapped := λ _, ProductVariant.wrapped_resolve_digital_content |};
  {| field := "margin";
     resolver := λ _ : unit, ProductVariant.resolve_margin;
     wrapped := λ _, ProductVariant.wrapped_resolve_margin |};
  {| field := "costPrice";
     resolver := λ _ : unit, ProductVariant.resolve_cost_price;
     wrapped := λ _, ProductVariant.wrapped_resolve_cost_price |};
  {| field := "price";
     resolver := λ _ : unit, ProductVariant.resolve_price;
     wrapped := λ _, ProductVariant.wrapped_resolve_price |};
  {| field := "quantity";
     resolver := λ _ : unit, ProductVariant.resolve_quantity;
     wrapped := λ _, ProductVariant.wrapped_resolve_quantity |};
  {| field := "quantityOrdered";
     resolver := λ _ : unit, ProductVariant.resolve_quantity_ordered;
     wrapped := λ _, ProductVariant.wrapped_resolve_quantity_ordered |};
  {| field := "quantityAllocated";
     resolver := λ _ : unit, ProductVariant.resolve_quantity_allocated;
     wrapped := λ _, ProductVariant.wrapped_resolve_quantity_allocated |};
  {| field := "revenue";
     resolver := λ period root info, ProductVariant.resolve_revenue root info period;
     wrapped := ProductVariant.wrapped_resolve_revenue |};
  {| field := "privateMeta";
     resolver := λ _ : unit, ProductVariant.resolve_private_meta;
     wrapped := λ _, ProductVariant.wrapped_resolve_private_meta |}
].

Definition product_gated_resolvers : list GatedResolver := [
  {| field := "purchaseCost";
     resolver := λ _ : unit, Product.resolve_purchase_cost;
     wrapped := λ _, Product.wrapped_resolve_purchase_cost |};
  {| field := "margin";
     resolver := λ _ : unit, Product.resolve_margin;
     wrapped := λ _, Product.wrapped_resolve_margin |};
  {| field := "channelListing";
     resolver := λ _ : unit, Product.resolve_channel_listing;
     wrapped := λ _, Product.wrapped_resolve_channel_listing |};
  {| field := "privateMeta";
     resolver := λ _ : unit, Product.resolve_private_meta;
     wrapped := λ _, Product.wrapped_resolve_private_meta |}
].

End gated.

(** The key under which the availability of a variant is loaded for the
    country of the request. *)
Definition availability_key (root : ProductVariant.Root) (info : ResolveInfo) : LoadKey :=
  AvailableQuantityByProductVariantIdAndCountryCodeLoader
    (models.ProductVariant.id (node root)) (Some (country (context info))).

(** [d] is the category [c] or lies below it in the tree. *)
Inductive descends_from : models.Category.t → models.Category.t → Prop :=
| descends_self c : descends_from c c
| descends_child d child c :
    child ∈ models.Category.children c → descends_from d child → descends_from d c.

(** The product has a listing that publishes it in the channel. *)
Definition published_in (db : Database) (channel_slug : string) (p : models.Product.t) : Prop :=
  ∃ l, l ∈ product_channel_listings db
       ∧ models.ProductChannelListing.product_id l = models.Product.id p
       ∧ models.ProductChannelListing.channel_slug l = channel_slug
       ∧ models.ProductChannelListing.is_published l = true.

(** The product has a listing in the channel, published or not. *)
Definition listed_in (db : Database) (channel_slug : string) (p : models.Product.t) : Prop :=
  ∃ l, l ∈ product_channel_listings db
       ∧ models.ProductChannelListing.product_id l = models.Product.id p
       ∧ models.ProductChannelListing.channel_slug l = channel_slug.

(** ** Sample data *)

Module fixtures.

Definition staff : Requestor := {| effective_permissions := [MANAGE_PRODUCTS] |}.
Definition customer : Requestor := {| effective_permissions := [] |}.

Definition request (r : Requestor) : ResolveInfo := {|
  context := {|
    user := r;
    country := "US";
    currency := "USD";
    request_time := 1600000000;
    plugins := {| active_plugins := [] |};
  |}
|}.

Definition usd (amount : Z) : Money := {| prices.amount := amount; prices.currency := "USD" |}.
Definition taxed (amount : Z) : TaxedMoney :=
  {| prices.net := usd amount; prices.gross := usd amount |}.

Definition shirt : models.ProductVariant.t := {|
  models.ProductVariant.id := 11;
  models.ProductVariant.name := "Shirt XL";
  models.ProductVariant.sku := "SHIRT-XL";
  models.ProductVariant.product_id := 1;
  models.ProductVariant.track_inventory := true;
  models.ProductVariant.cost_price := Some (usd 400);
  models.ProductVariant.price := Some (usd 1000);
  models.ProductVariant.digital_content := None;
  models.ProductVariant.private_metadata := ∅;
  models.ProductVariant.annotations := ∅;
|}.

(** A variant sold without stock keeping. *)
Definition ebook : models.ProductVariant.t := {|
  models.ProductVariant.id := 12;
  models.ProductVariant.name := "E-book";
  models.ProductVariant.sku := "EBOOK";
  models.ProductVariant.product_id := 2;
  models.ProductVariant.track_inventory := false;
  models.ProductVariant.cost_price := None;
  models.ProductVariant.price := Some (usd 500);
  models.ProductVariant.digital_content := Some 7;
  models.ProductVariant.private_metadata := ∅;
  models.ProductVariant.annotations := ∅;
|}.

(** The shirt as the sales report returns it, with its annotation. *)
Definition reported_shirt : models.ProductVariant.t := {|
  models.ProductVariant.id := 11;
  models.ProductVariant.name := "Shirt XL";
  models.ProductVariant.sku := "SHIRT-XL";
  models.ProductVariant.product_id := 1;
  models.ProductVariant.track_inventory := true;
  models.ProductVariant.cost_price := Some (usd 400);
  models.ProductVariant.price := Some (usd 1000);
  models.ProductVariant.digital_content := None;
  models.ProductVariant.private_metadata := ∅;
  models.ProductVariant.annotations := {[ "quantity_ordered" := PyInt 3 ]};
|}.

Definition sneakers : models.Product.t := {|
  models.Product.id := 1;
  models.Product.name := "Sneakers";
  models.Product.slug := "sneakers";
  models.Product.category_id := Some 21;
  models.Product.private_metadata := ∅;
  models.Product.annotations := ∅;
|}.

Definition shoes : models.Category.t := models.Category.Build_t 21 "shoes" [].
Definition apparel : models.Category.t := models.Category.Build_t 20 "apparel" [shoes].

Definition db : Database := {|
  products := [sneakers];
  product_channel_listings := [
    {| models.ProductChannelListing.id := 1;
       models.ProductChannelListing.product_id := 1;
       models.ProductChannelListing.channel_slug := "default-channel";
       models.ProductChannelListing.is_published := true |}
  ];
  default_channel :=
    Some {| models.Channel.id := 1; models.Channel.slug := "default-channel" |};
|}.

Definition picture : models.ProductImage.t := {|
  models.ProductImage.id := 31;
  models.ProductImage.image :=
    {| models.ProductImage.storage_name := "products/sneakers.jpg";
       models.ProductImage.url := "/media/products/sneakers.jpg" |};
  models.ProductImage.alt := "Sneakers";
  models.ProductImage.sort_order := 0;
|}.

Definition settings : Settings := {| MAX_CHECKOUT_LINE_QUANTITY := 50 |}.

Definition pricing : PricingService := {|
  get_variant_availability v _ _ _ _ _ _ _ := {|
    availability.on_sale := false;
    availability.price := taxed (from_option prices.amount 0 (models.ProductVariant.price v));
    availability.price_undiscounted :=
      taxed (from_option prices.amount 0 (models.ProductVariant.price v));
    availability.discount := None;
    availability.price_local_currency := None;
    availability.discount_local_currency := None;
  |};
  get_product_availability _ _ _ _ _ _ _ _ := {|
    product_availability.on_sale := false;
    product_availability.price_range := None;
    product_availability.price_range_undiscounted := None;
    product_availability.discount := None;
    product_availability.price_range_local_currency := None;
    product_availability.discount_local_currency := None;
  |};
  get_margin_for_variant _ := Some 60;
  get_product_costs_data _ := ({| prices.start := usd 400; prices.stop := usd 400 |}, (60, 60));
|}.

Definition warehouse : WarehouseService := {|
  get_available_quantity _ _ := 5;
  get_quantity_allocated _ _ := 0;
  is_product_in_stock _ _ := true;
  stocks _ := [];
  for_country _ rows := rows;
  annotate_available_quantity rows := (λ row, (row, models.Stock.quantity row)) <$> rows;
|}.

Definition reporting : ReportingService := {|
  reporting_period_to_date _ := 18500;
  calculate_revenue_for_variant _ _ := taxed 0;
|}.

Definition metadata : MetadataStore := {|
  private_meta_of _ := [];
|}.

Definition images : ImageService := {|
  get_thumbnail file size method :=
    models.ProductImage.url file +:+ "?" +:+ method +:+ "=" +:+ pretty size;
  build_absolute_uri _ url := "https://shop.example" +:+ url;
|}.

(** A persistence layer that reports five units for every variant. *)
Definition backend : Backend := λ k,
  match k with
  | AvailableQuantityByProductVariantIdAndCountryCodeLoader _ _ => Fulfilled 5
  | ProductByIdLoader _ => Fulfilled (Some sneakers)
  | ProductChannelListingByProductIdAndChanneSlugLoader _ _ => Fulfilled None
  | ProductChannelListingByProductIdLoader _ => Fulfilled []
  | ProductVariantsByProductIdLoader _ => Fulfilled [shirt]
  | CollectionsByProductIdLoader _ => Fulfilled []
  | DiscountsByDateTimeLoader _ => Fulfilled []
  end.

End fixtures.

(** * The remaining resolvers of the module *)

(** ** Loaders of the catalogue relations *)

(** The deferred values of a family of loaders, over the keys [K] of the
    family and what each key resolves to. *)
Module deferred.
Section deferred.
Context {K : Type} (loaded : K → Type).

Inductive promise (A : Type) : Type :=
| value (a : A)
| then_load (k : K) (callback : loaded k → promise A).
Arguments value {A} a.
Arguments then_load {A} k callback.

Fixpoint then_ {A B} (p : promise A) (f : A → promise B) : promise B :=
  match p with
  | value a => f a
  | then_load k callback => then_load k (λ v, then_ (callback v) f)
  end.

Definition backend := ∀ k : K, Settled (loaded k).

Fixpoint settle {A} (fetch : backend) (p : promise A) : Settled A :=
  match p with
  | value a => Fulfilled a
  | then_load k callback =>
      match fetch k with
      | Fulfilled v => settle fetch (callback v)
      | Rejected e => Rejected e
      end
  end.

(** One call of a resolver over the family: the keys it queued and the
    promise it returned. None of the resolvers below raises. *)
Record resolution (A : Type) := {
  issued : list K;
  returned : promise A;
}.
Arguments issued {A} r.
Arguments returned {A} r.

Definition returns {A} (a : A) : resolution A :=
  {| issued := []; returned := value a |}.

Definition load (k : K) : resolution (loaded k) :=
  {| issued := [k]; returned := then_load k value |}.

(** [resolver.then(f)] on the promise a resolver hands back. *)
Definition map_promise {A B} (r : resolution A) (f : A → promise B) : resolution B :=
  {| issued := issued r; returned := then_ (returned r) f |}.

Definition resolves_to {A} (fetch : backend) (r : resolution A) : Settled A :=
  settle fetch (returned r).

End deferred.
Arguments value {K loaded A} a.
Arguments then_load {K loaded A} k callback.
Arguments issued {K loaded A} r.
Arguments returned {K loaded A} r.
Arguments returns {K loaded A} a.
Arguments resolves_to {K loaded A} fetch r.
End deferred.

Module models_more.

Module ProductType.
Record t := {
  id : Z;
  name : string;
  slug : string;
  has_variants : bool;
  private_metadata : gmap string string;
}.
#[global] Instance product_type_model : models.Model t := id.
End ProductType.

Module Attribute.
Record t := { id : Z; slug : string }.
End Attribute.

End models_more.

(** The loaders of [..dataloaders] that the resolvers above did not need. *)
Inductive CatalogueKey : Type :=
| ImagesByProductIdLoader (product_id : Z)
| CategoryByIdLoader (category_id : Z).

Definition catalogue_loaded (k : CatalogueKey) : Type :=
  match k with
  | ImagesByProductIdLoader _ => list models.ProductImage.t
  | CategoryByIdLoader _ => option models.Category.t
  end.

Abbreviation CatalogueResolution := (deferred.resolution catalogue_loaded).
Abbreviation CataloguePromise := (deferred.promise catalogue_loaded).
Abbreviation CatalogueBackend := (deferred.backend catalogue_loaded).

(** ** Further collaborators *)

Module Image.
(** [core.types.Image]: an image as the API shows it. *)
Record t := { url : string; alt : string }.
End Image.

(** [product.templatetags.product_images.get_product_image_thumbnail]. *)
Class ProductThumbnails := {
  get_product_image_thumbnail : models.ProductImage.t → Z → string → string;
}.

(** The related managers and model managers the resolvers query. *)
Class CatalogueManagers := {
  (* [product.images]: the images of a product *)
  product_images : models.Product.t → list models.ProductImage.t;
  (* [product_type.products.visible_to_user(user, channel)] *)
  product_type_products_visible_to_user :
    models_more.ProductType.t → Requestor → string → list models.Product.t;
  (* [collection.products.collection_sorted(user, channel)] *)
  collection_products_sorted :
    models.Collection.t → Requestor → string → list models.Product.t;
  (* [Collection.objects.visible_to_user(user)] *)
  collections_visible_to_user : Requestor → list models.Collection.t;
  (* [Attribute.objects.get_unassigned_attributes(product_type_pk)] *)
  get_unassigned_attributes : Z → list models_more.Attribute.t;
  (* [..resolvers.resolve_attributes(info, qs=qs, **kwargs)], the keyword
     arguments being the filter of the connection *)
  resolve_attributes :
    ResolveInfo → list models_more.Attribute.t → list (string * Py.value) →
    list models_more.Attribute.t;
}.

(** [..utils.get_database_id]: the primary key a global identifier of the
    given type stands for, or the error it fails with. *)
Class GlobalIds := {
  get_database_id : ResolveInfo → string → string → Error + Z;
}.

(** What [queryset.get(...)] comes to. *)
Inductive GetResult (A : Type) : Type :=
| Got (a : A)
| DoesNotExist
| MultipleObjectsReturned.
Arguments Got {A} a.
Arguments DoesNotExist {A}.
Arguments MultipleObjectsReturned {A}.

(** [queryset.get(pk=pk)]: the one row with the key; otherwise the exception
    that says whether there was none or more than one. *)
Definition get_by_pk {A} `{models.Model A} (rows : list A) (pk : Z) : GetResult A :=
  match filter (λ row, models.pk row = pk) rows with
  | [] => DoesNotExist
  | [row] => Got row
  | _ :: _ :: _ => MultipleObjectsReturned
  end.

#[global] Instance product_image_model : models.Model models.ProductImage.t :=
  models.ProductImage.id.
#[global] Instance collection_model : models.Model models.Collection.t :=
  models.Collection.id.

(** The private metadata column of the models whose records above do not
    carry it. *)
Class MetadataColumns := {
  collection_private_metadata : models.Collection.t → gmap string string;
  category_private_metadata : models.Category.t → gmap string string;
}.
#[global] Instance product_type_with_metadata
  : ObjectWithMetadata models_more.ProductType.t :=
  models_more.ProductType.private_metadata.
#[global] Instance collection_with_metadata {columns : MetadataColumns}
  : ObjectWithMetadata models.Collection.t := collection_private_metadata.
#[global] Instance category_with_metadata {columns : MetadataColumns}
  : ObjectWithMetadata models.Category.t := category_private_metadata.

(** ** Further fields of the object types *)

Module ProductVariantFields.

Definition resolve_product (root : ProductVariant.Root) (info : ResolveInfo)
    : Resolution (Promise (option models.Product.t)) :=
  load (ProductByIdLoader (models.ProductVariant.product_id (node root))).

End ProductVariantFields.

Module ProductFields.
Section ProductFields.
Context {managers : CatalogueManagers} {thumbnails : ProductThumbnails}
  {image_service : ImageService} {global_ids : GlobalIds}.

Definition resolve_category (root : Product.Root) (info : ResolveInfo)
    : CatalogueResolution (option models.Category.t) :=
  let category_id := models.Product.category_id (node root) in
  match category_id with
  | None => deferred.returns None
  | Some category_id => deferred.load catalogue_loaded (CategoryByIdLoader category_id)
  end.

(** The callback of [resolve_thumbnail]. A model instance is truthy, so the
    second test of the code passes exactly when there is a first image. *)
Definition return_first_thumbnail (info : ResolveInfo) (size : Z)
    (images : list models.ProductImage.t) : option Image.t :=
  let image := if truthy images then head images else None in
  match image with
  | Some image =>
      let url := get_product_image_thumbnail image size "thumbnail" in
      let alt := models.ProductImage.alt image in
      Some {| Image.alt := alt; Image.url := build_absolute_uri (context info) url |}
  | None => None
  end.

(** [size] is a keyword argument with default 255: [None] stands for a query
    that leaves it out. *)
Definition resolve_thumbnail (root : Product.Root) (info : ResolveInfo)
    (size : option Z) : CatalogueResolution (option Image.t) :=
  let size := default 255 size in
  deferred.map_promise catalogue_loaded
    (deferred.load catalogue_loaded (ImagesByProductIdLoader (models.Product.id (node root))))
    (λ images, deferred.value (return_first_thumbnail info size images)).

(** An exception of the query other than [DoesNotExist] is not caught; it
    surfaces as a failure of the persistence layer. *)
Definition resolve_image_by_id (root : Product.Root) (info : ResolveInfo) (id : string)
    : Resolution models.ProductImage.t :=
  match get_database_id info id "ProductImage" with
  | inl e => raises e
  | inr pk =>
      match get_by_pk (product_images (node root)) pk with
      | Got image => returns image
      | DoesNotExist => raises (GraphQLError "Product image not found.")
      | MultipleObjectsReturned => raises (UpstreamFailure "MultipleObjectsReturned")
      end
  end.

Definition resolve_images (root : Product.Root) (info : ResolveInfo)
    : CatalogueResolution (list models.ProductImage.t) :=
  deferred.load catalogue_loaded (ImagesByProductIdLoader (models.Product.id (node root))).

Definition resolve_variants (root : Product.Root) (info : ResolveInfo)
    : Resolution (Promise (list models.ProductVariant.t)) :=
  load (ProductVariantsByProductIdLoader (models.Product.id (node root))).

End ProductFields.
End ProductFields.

Module ProductType.
Section ProductType.
Context {managers : CatalogueManagers} {metadata_store : MetadataStore}.

Definition resolve_products (db : Database) (root : models_more.ProductType.t)
    (info : ResolveInfo) (channel : option string)
    : Resolution (ChannelQsContext models.Product.t) :=
  let user := user (context info) in
  channel ← match channel with
            | None =>
                default_channel ← get_default_channel_or_graphql_error db;
                mret (models.Channel.slug default_channel)
            | Some channel => returns channel
            end;
  let qs := product_type_products_visible_to_user root user channel in
  mret {| qs := qs; qs_channel_slug := channel |}.

Definition wrapped_resolve_available_attributes (kwargs : list (string * Py.value))
    (root : models_more.ProductType.t) (info : ResolveInfo)
    : Resolution (list models_more.Attribute.t) :=
  let qs := get_unassigned_attributes (models.pk root) in
  returns (resolve_attributes info qs kwargs).

Definition resolve_available_attributes (root : models_more.ProductType.t)
    (info : ResolveInfo) (kwargs : list (string * Py.value)) :=
  permission_required MANAGE_PRODUCTS (wrapped_resolve_available_attributes kwargs)
    root info.

Definition wrapped_resolve_private_meta (root : models_more.ProductType.t)
    (_info : ResolveInfo) : Resolution (list (string * list (string * string))) :=
  returns (resolve_private_meta root _info).

Definition resolve_private_meta :=
  permission_required MANAGE_PRODUCTS wrapped_resolve_private_meta.

End ProductType.
End ProductType.

Module Collection.
Section Collection.
Context {managers : CatalogueManagers} {metadata_store : MetadataStore}
  {columns : MetadataColumns}.

Definition resolve_products (db : Database) (root : models.Collection.t)
    (info : ResolveInfo) (channel : option string)
    : Resolution (ChannelQsContext models.Product.t) :=
  let user := user (context info) in
  channel ← match channel with
            | None =>
                default_channel ← get_default_channel_or_graphql_error db;
                mret (models.Channel.slug default_channel)
            | Some channel => returns channel
            end;
  let qs := collection_products_sorted root user channel in
  mret {| qs := qs; qs_channel_slug := channel |}.

(** [info.context] is [None] when the node is asked for outside a request.
    [first()] is the head of the rows that are left. *)
Definition get_node (info_context : option RequestContext) (id : Z)
    : option models.Collection.t :=
  match info_context with
  | Some context =>
      let user := user context in
      let qs := collections_visible_to_user user in
      head (filter (λ c, models.Collection.id c = id) qs)
  | None => None
  end.

Definition wrapped_resolve_private_meta (root : models.Collection.t)
    (_info : ResolveInfo) : Resolution (list (string * list (string * string))) :=
  returns (resolve_private_meta root _info).

Definition resolve_private_meta :=
  permission_required MANAGE_PRODUCTS wrapped_resolve_private_meta.

End Collection.
End Collection.

Module CategoryFields.
Section CategoryFields.
Context {metadata_store : MetadataStore} {columns : MetadataColumns}.

Definition resolve_children (root : models.Category.t) (info : ResolveInfo)
    : list models.Category.t :=
  models.Category.children root.

Definition wrapped_resolve_private_meta (root : models.Category.t)
    (_info : ResolveInfo) : Resolution (list (string * list (string * string))) :=
  returns (resolve_private_meta root _info).

Definition resolve_private_meta :=
  permission_required MANAGE_PRODUCTS wrapped_resolve_private_meta.

End CategoryFields.
End CategoryFields.

(** ** Vocabulary of the further properties *)

(** The database with every channel listing withdrawn from publication. *)
Definition unpublish_all (db : Database) : Database := {|
  products := products db;
  product_channel_listings :=
    (λ l, {| models.ProductChannelListing.id := models.ProductChannelListing.id l;
             models.ProductChannelListing.product_id :=
               models.ProductChannelListing.product_id l;
             models.ProductChannelListing.channel_slug :=
               models.ProductChannelListing.channel_slug l;
             models.ProductChannelListing.is_published := false |})
    <$> product_channel_listings db;
  default_channel := default_channel db;
|}.

Section other_gated.
Context {managers : CatalogueManagers} {metadata_store : MetadataStore}
  {columns : MetadataColumns}.

(** The gated resolvers of the product type, the collection and the
    category. *)
Definition other_gated_resolvers : list GatedResolver := [
  {| field := "availableAttributes";
     resolver := λ kwargs root info,
       ProductType.resolve_available_attributes root info kwargs;
     wrapped := ProductType.wrapped_resolve_available_attributes |};
  {| field := "privateMeta";
     resolver := λ _ : unit, ProductType.resolve_private_meta;
     wrapped := λ _, ProductType.wrapped_resolve_private_meta |};
  {| field := "privateMeta";
     resolver := λ _ : unit, Collection.resolve_private_meta;
     wrapped := λ _, Collection.wrapped_resolve_private_meta |};
  {| field := "privateMeta";
     resolver := λ _ : unit, CategoryFields.resolve_private_meta;
     wrapped := λ _, CategoryFields.wrapped_resolve_private_meta |}
].

End other_gated.

(** ** Further sample data *)

Module samples.

Definition side_view : models.ProductImage.t := {|
  models.ProductImage.id := 32;
  models.ProductImage.image :=
    {| models.ProductImage.storage_name := "products/sneakers-side.jpg";
       models.ProductImage.url := "/media/products/sneakers-side.jpg" |};
  models.ProductImage.alt := "Sneakers, side view";
  models.ProductImage.sort_order := 1;
|}.

Definition summer : models.Collection.t :=
  {| models.Collection.id := 41; models.Collection.name := "Summer";
     models.Collection.slug := "summer" |}.
Definition hidden : models.Collection.t :=
  {| models.Collection.id := 42; models.Collection.name := "Hidden";
     models.Collection.slug := "hidden" |}.

Definition footwear : models_more.ProductType.t := {|
  models_more.ProductType.id := 51;
  models_more.ProductType.name := "Footwear";
  models_more.ProductType.slug := "footwear";
  models_more.ProductType.has_variants := true;
  models_more.ProductType.private_metadata := ∅;
|}.

Definition managers : CatalogueManagers := {|
  product_images p :=
    if decide (models.Product.id p = 1) then [fixtures.picture; side_view] else [];
  product_type_products_visible_to_user _ _ channel :=
    if decide (channel = "default-channel") then [fixtures.sneakers] else [];
  collection_products_sorted _ _ channel :=
    if decide (channel = "default-channel") then [fixtures.sneakers] else [];
  collections_visible_to_user r :=
    if has_perm r MANAGE_PRODUCTS then [summer; hidden] else [summer];
  get_unassigned_attributes _ := [];
  resolve_attributes _ qs _ := qs;
|}.

Definition thumbnails : ProductThumbnails := {|
  get_product_image_thumbnail image size method :=
    models.ProductImage.url (models.ProductImage.image image)
    +:+ "?" +:+ method +:+ "=" +:+ pretty size;
|}.

(** Global identifiers written as the type name, a colon and the key. *)
Definition global_ids : GlobalIds := {|
  get_database_id _ node_id only_type :=
    if decide (node_id = "ProductImage:31") then inr 31
    else if decide (node_id = "ProductImage:32") then inr 32
    else if decide (node_id = "ProductImage:99") then inr 99
    else inl (GraphQLError ("Must receive a " +:+ only_type +:+ " id."));
|}.

Definition columns : MetadataColumns := {|
  collection_private_metadata _ := ∅;
  category_private_metadata _ := ∅;
|}.

(** A persistence layer for the catalogue relations. *)
Definition backend : CatalogueBackend := λ k,
  match k with
  | ImagesByProductIdLoader product_id =>
      Fulfilled (if decide (product_id = 1) then [fixtures.picture; side_view] else [])
  | CategoryByIdLoader _ => Fulfilled (Some fixtures.shoes)
  end.

(** A persistence layer that knows the one category "shoes". *)
Definition consistent_backend : CatalogueBackend := λ k,
  match k return Settled (catalogue_loaded k) with
  | CategoryByIdLoader id =>
      Fulfilled (if decide (id = 21) then Some fixtures.shoes else None)
  | k => backend k
  end.

(** A persistence layer whose availability batch fails. *)
Definition failing_backend : Backend := λ k,
  match k with
  | AvailableQuantityByProductVariantIdAndCountryCodeLoader _ _ =>
      Rejected (UpstreamFailure "warehouse unavailable")
  | _ => fixtures.backend k
  end.

(** The sample persistence layer with the batch of one key failing. *)
Definition backend_failing_at (failing : LoadKey) (e : Error) : Backend := λ k,
  if decide (k = failing) then Rejected e else fixtures.backend k.

End samples.

(** * Properties *)

(** ** Promises and the permission gate *)

Lemma settle_then_ {A B} (fetch : Backend) (p : Promise A) (f : A → Promise B) :
  settle fetch (then_ p f) =
    match settle fetch p with
    | Fulfilled a => settle fetch (f a)
    | Rejected e => Rejected e
    end.
Proof.
  induction p as [a | k callback IH]; simpl; [done |].
  destruct (fetch k) as [v | e]; [apply IH | done].
Qed.

Lemma awaited_then_ {A B} (fetch : Backend) (p : Promise A) (f : A → Promise B) :
  awaited fetch (then_ p f) =
    awaited fetch p ++
      match settle fetch p with
      | Fulfilled a => awaited fetch (f a)
      | Rejected _ => []
      end.
Proof.
  induction p as [a | k callback IH]; simpl; [done |].
  destruct (fetch k) as [v | e]; [by rewrite IH | done].
Qed.

(** The resolver monad is lawful. *)
Lemma and_then_returns_l {A B} (a : A) (f : A → Resolution B) :
  and_then (returns a) f = f a.
Proof. unfold and_then. simpl. by destruct (f a). Qed.

Lemma and_then_returns_r {A} (m : Resolution A) : and_then m returns = m.
Proof.
  destruct m as [keys [e | a]]; unfold and_then; simpl; [done |].
  by rewrite app_nil_r.
Qed.

Lemma and_then_assoc {A B C} (m : Resolution A) (f : A → Resolution B)
    (g : B → Resolution C) :
  and_then (and_then m f) g = and_then m (λ a, and_then (f a) g).
Proof.
  destruct m as [keys [e | a]]; unfold and_then; simpl; [done |].
  destruct (f a) as [keys' [e | b]]; simpl; [done |].
  by rewrite (assoc_L (++)).
Qed.

(** A resolver that raises hands nothing back, whatever the loaders hold. *)
Lemma resolves_to_raises {A} (fetch : Backend) (e : Error) :
  resolves_to fetch (raises e : Resolution (Promise A)) = Rejected e.
Proof. reflexivity. Qed.

Lemma has_perm_spec (r : Requestor) (perm : Permission) :
  has_perm r perm = true ↔ perm ∈ effective_permissions r.
Proof. unfold has_perm. apply bool_decide_eq_true. Qed.

Lemma has_perm_lacking (r : Requestor) (perm : Permission) :
  perm ∉ effective_permissions r → has_perm r perm = false.
Proof. intros Hlacks. unfold has_perm. by apply bool_decide_eq_false. Qed.

Lemma permission_required_granted {Root A} (perm : Permission)
    (inner : Root → ResolveInfo → Resolution A) (root : Root) (info : ResolveInfo) :
  perm ∈ effective_permissions (user (context info)) →
  permission_required perm inner root info = inner root info.
Proof.
  intros Hholds. unfold permission_required.
  by rewrite (proj2 (has_perm_spec _ _) Hholds).
Qed.

Lemma permission_required_denied {Root A} (perm : Permission)
    (inner : Root → ResolveInfo → Resolution A) (root : Root) (info : ResolveInfo) :
  perm ∉ effective_permissions (user (context info)) →
  permission_required perm inner root info = raises (PermissionDenied perm).
Proof. intros Hlacks. unfold permission_required. by rewrite has_perm_lacking. Qed.

(** ** The channel context *)

Section channel_context.
Context {T : Type} {object : Py.Object T} {model : models.Model T}.

(** C6. Wrapping a record in a channel context and resolving [id] gives the
    primary key of the wrapped record, whatever the channel of the wrapper. *)
Theorem resolve_id_is_wrapped_pk (record : T) (channel : option string) (info : ResolveInfo) :
  ChannelContextType.resolve_id (Build_ChannelContext record channel) info
  = models.pk record.
Proof. reflexivity. Qed.

Example shirt_id :
  ChannelContextType.resolve_id
    (Build_ChannelContext fixtures.shirt (Some "default-channel"))
    (fixtures.request fixtures.customer) = 11.
Proof. reflexivity. Qed.

Lemma resolver_with_context_getattr (attname : string) (default_value : Py.value)
    (root : ChannelContext T) (info : ResolveInfo) :
  ChannelContextType.resolver_with_context attname default_value root info
  = Py.getattr (node root) attname default_value.
Proof. reflexivity. Qed.

(** The default rule is the same for every channel of the wrapper. *)
Lemma resolver_with_context_reads_wrapped_record (attname : string)
    (default_value : Py.value) (record : T) (channel channel' : option string)
    (info : ResolveInfo) :
  ChannelContextType.resolver_with_context attname default_value
    (Build_ChannelContext record channel) info
  = from_option id default_value (Py.lookup_attr record attname)
  ∧ ChannelContextType.resolver_with_context attname default_value
      (Build_ChannelContext record channel) info
    = ChannelContextType.resolver_with_context attname default_value
        (Build_ChannelContext record channel') info.
Proof. split; reflexivity. Qed.


End channel_context.


(** ** Inventory of a variant *)

Lemma truthy_slug_false (slug : option string) :
  truthy slug = false ↔ slug = None ∨ slug = Some "".
Proof.
  destruct slug as [[| a s] |]; simpl; split; try done; try (by left); try (by right).
  - by intros [? | ?].
Qed.

Lemma truthy_slug_true (slug : string) : slug ≠ "" → truthy (Some slug) = true.
Proof. by destruct slug. Qed.

Section variant_inventory.
Context {settings : Settings}.

(** C2. For a variant that does not track inventory, [quantityAvailable], for
    any country code, and [stockQuantity] return the configured maximum
    quantity at once: no key is handed to the availability loader, and the
    value is the same whatever the persistence layer holds. *)
Theorem untracked_variant_quantity_is_sentinel (root : ProductVariant.Root)
    (info : ResolveInfo) (country_code : option Country) :
  models.ProductVariant.track_inventory (node root) = false →
  ProductVariant.resolve_quantity_available root info country_code
  = returns (Value MAX_CHECKOUT_LINE_QUANTITY)
  ∧ ProductVariant.resolve_stock_quantity root info
    = returns (Value MAX_CHECKOUT_LINE_QUANTITY)
  ∧ issued (ProductVariant.resolve_quantity_available root info country_code) = []
  ∧ issued (ProductVariant.resolve_stock_quantity root info) = []
  ∧ ∀ fetch : Backend,
      resolves_to fetch (ProductVariant.resolve_quantity_available root info country_code)
      = Fulfilled MAX_CHECKOUT_LINE_QUANTITY
      ∧ resolves_to fetch (ProductVariant.resolve_stock_quantity root info)
        = Fulfilled MAX_CHECKOUT_LINE_QUANTITY.
Proof.
  intros Huntracked.
  unfold ProductVariant.resolve_quantity_available, ProductVariant.resolve_stock_quantity.
  rewrite Huntracked. simpl. repeat split.
Qed.

End variant_inventory.

Lemma untracked_variant_quantity_is_sentinel_witness :
  let root := Build_ChannelContext fixtures.ebook (Some "default-channel") in
  let info := fixtures.request fixtures.customer in
  @ProductVariant.resolve_quantity_available fixtures.settings root info (Some "PL")
  = returns (Value 50).
Proof.
  intros root info.
  apply (@untracked_variant_quantity_is_sentinel fixtures.settings root info (Some "PL")).
  reflexivity.
Defined.

Lemma is_variant_in_stock_spec (q : Z) : ProductVariant.is_variant_in_stock q = true ↔ q > 0.
Proof. unfold ProductVariant.is_variant_in_stock. apply bool_decide_eq_true. Qed.

(** C3. For a variant that tracks inventory, [isAvailable] hands the variant
    id and the country of the request to the availability loader and is true
    exactly when the loaded quantity is positive; for a variant that does not,
    it is true with nothing loaded. *)
Theorem variant_is_available_iff_positive (root : ProductVariant.Root) (info : ResolveInfo) :
  (models.ProductVariant.track_inventory (node root) = true →
     issued (ProductVariant.resolve_is_available root info) = [availability_key root info]
     ∧ ∀ (fetch : Backend) (q : Z),
         fetch (availability_key root info) = Fulfilled q →
         ∃ b : bool,
           resolves_to fetch (ProductVariant.resolve_is_available root info) = Fulfilled b
           ∧ (b = true ↔ q > 0))
  ∧ (models.ProductVariant.track_inventory (node root) = false →
       ProductVariant.resolve_is_available root info = returns (Value true)).
Proof.
  unfold ProductVariant.resolve_is_available. split; intros ->; simpl; [| done].
  split; [done |]. intros fetch q Hq.
  exists (ProductVariant.is_variant_in_stock q). split.
  - unfold resolves_to, availability_key in *. simpl. by rewrite Hq.
  - apply is_variant_in_stock_spec.
Qed.

Example shirt_in_stock :
  resolves_to fixtures.backend
    (ProductVariant.resolve_is_available
       (Build_ChannelContext fixtures.shirt None) (fixtures.request fixtures.customer))
  = Fulfilled true.
Proof. reflexivity. Qed.

Lemma variant_is_available_iff_positive_witness :
  let root := Build_ChannelContext fixtures.shirt (Some "default-channel") in
  let info := fixtures.request fixtures.customer in
  issued (ProductVariant.resolve_is_available root info)
  = [AvailableQuantityByProductVariantIdAndCountryCodeLoader 11 (Some "US")]
  ∧ ProductVariant.resolve_is_available
      (Build_ChannelContext fixtures.ebook None) info = returns (Value true).
Proof.
  intros root info. split.
  - apply (variant_is_available_iff_positive root info). reflexivity.
  - apply (variant_is_available_iff_positive (Build_ChannelContext fixtures.ebook None) info).
    reflexivity.
Defined.

(** ** Pricing *)

(** One step of a pricing chain: either the batch delivers [value], or it
    fails, and then no snapshot comes out, whatever the other batches do. *)
Ltac await batch value :=
  destruct batch as [value | ?]; simpl;
  [| split; [done | by intros (? & ? & ? & ? & ? & ? & ? & ? & _)]].

Section pricing.
Context {pricing_service : PricingService}.

Lemma variant_pricing_without_channel (root : ProductVariant.Root) (info : ResolveInfo) :
  truthy (channel_slug root) = false →
  ProductVariant.resolve_pricing root info = returns (Value None).
Proof. intros Habsent. unfold ProductVariant.resolve_pricing. by rewrite Habsent. Qed.

Lemma product_pricing_without_channel (root : Product.Root) (info : ResolveInfo) :
  truthy (channel_slug root) = false →
  Product.resolve_pricing root info = returns (Value None).
Proof. intros Habsent. unfold Product.resolve_pricing. by rewrite Habsent. Qed.

Lemma variant_pricing_in_channel (root : ProductVariant.Root) (info : ResolveInfo)
    (slug : string) :
  channel_slug root = Some slug → slug ≠ "" →
  let product_id := models.ProductVariant.product_id (node root) in
  let ctx := context info in
  issued (ProductVariant.resolve_pricing root info)
  = [ProductByIdLoader product_id;
     ProductChannelListingByProductIdAndChanneSlugLoader product_id slug;
     CollectionsByProductIdLoader product_id;
     DiscountsByDateTimeLoader (request_time ctx)]
  ∧ ∀ (fetch : Backend) (snapshot : option VariantPricingInfo.t),
      resolves_to fetch (ProductVariant.resolve_pricing root info) = Fulfilled snapshot
      ↔ ∃ discounts product channel_listing collections,
          fetch (DiscountsByDateTimeLoader (request_time ctx)) = Fulfilled discounts
          ∧ fetch (ProductByIdLoader product_id) = Fulfilled product
          ∧ fetch (ProductChannelListingByProductIdAndChanneSlugLoader product_id slug)
            = Fulfilled channel_listing
          ∧ fetch (CollectionsByProductIdLoader product_id) = Fulfilled collections
          ∧ snapshot = Some (VariantPricingInfo.of_dataclass
              (get_variant_availability (node root) product channel_listing collections
                 discounts (country ctx) (currency ctx) (plugins ctx))).
Proof.
  intros Hslug Hnonempty product_id ctx.
  unfold ProductVariant.resolve_pricing.
  rewrite Hslug, (truthy_slug_true slug Hnonempty). simpl. split; [done |].
  intros fetch snapshot. unfold resolves_to. simpl.
  fold product_id ctx.
  await (fetch (DiscountsByDateTimeLoader (request_time ctx))) discounts.
  await (fetch (ProductByIdLoader product_id)) product.
  await (fetch (ProductChannelListingByProductIdAndChanneSlugLoader product_id slug))
    channel_listing.
  await (fetch (CollectionsByProductIdLoader product_id)) collections.
  split.
  - intros [= <-]. by exists discounts, product, channel_listing, collections.
  - intros (? & ? & ? & ? & [= <-] & [= <-] & [= <-] & [= <-] & ->). done.
Qed.

Lemma product_pricing_in_channel (root : Product.Root) (info : ResolveInfo)
    (slug : string) :
  channel_slug root = Some slug → slug ≠ "" →
  let product_id := models.Product.id (node root) in
  let ctx := context info in
  issued (Product.resolve_pricing root info)
  = [ProductChannelListingByProductIdAndChanneSlugLoader product_id slug;
     ProductVariantsByProductIdLoader product_id;
     CollectionsByProductIdLoader product_id;
     DiscountsByDateTimeLoader (request_time ctx)]
  ∧ ∀ (fetch : Backend) (snapshot : option ProductPricingInfo.t),
      resolves_to fetch (Product.resolve_pricing root info) = Fulfilled snapshot
      ↔ ∃ discounts channel_listing variants collections,
          fetch (DiscountsByDateTimeLoader (request_time ctx)) = Fulfilled discounts
          ∧ fetch (ProductChannelListingByProductIdAndChanneSlugLoader product_id slug)
            = Fulfilled channel_listing
          ∧ fetch (ProductVariantsByProductIdLoader product_id) = Fulfilled variants
          ∧ fetch (CollectionsByProductIdLoader product_id) = Fulfilled collections
          ∧ snapshot = Some (ProductPricingInfo.of_dataclass
              (get_product_availability (node root) channel_listing variants collections
                 discounts (country ctx) (currency ctx) (plugins ctx))).
Proof.
  intros Hslug Hnonempty product_id ctx.
  unfold Product.resolve_pricing.
  rewrite Hslug, (truthy_slug_true slug Hnonempty). simpl. split; [done |].
  intros fetch snapshot. unfold resolves_to. simpl.
  fold product_id ctx.
  await (fetch (DiscountsByDateTimeLoader (request_time ctx))) discounts.
  await (fetch (ProductChannelListingByProductIdAndChanneSlugLoader product_id slug))
    channel_listing.
  await (fetch (ProductVariantsByProductIdLoader product_id)) variants.
  await (fetch (CollectionsByProductIdLoader product_id)) collections.
  split.
  - intros [= <-]. by exists discounts, channel_listing, variants, collections.
  - intros (? & ? & ? & ? & [= <-] & [= <-] & [= <-] & [= <-] & ->). done.
Qed.

(** C4. Without a channel slug on the wrapper ([None], or the empty string,
    which the test of the resolver treats alike) the [pricing] field of a
    variant and of a product is empty and nothing is handed to a loader. With
    a slug, the four loads are issued, and a pricing snapshot comes out only
    when the discounts, the product or variants, the channel listing and the
    collections have all been fetched: it is then the aggregate of exactly
    those values. *)
Theorem pricing_needs_channel_and_all_loads
    (variant : ProductVariant.Root) (product : Product.Root) (info : ResolveInfo) :
  (truthy (channel_slug variant) = false →
     ProductVariant.resolve_pricing variant info = returns (Value None))
  ∧ (truthy (channel_slug product) = false →
       Product.resolve_pricing product info = returns (Value None))
  ∧ (∀ slug, channel_slug variant = Some slug → slug ≠ "" →
       issued (ProductVariant.resolve_pricing variant info)
       = [ProductByIdLoader (models.ProductVariant.product_id (node variant));
          ProductChannelListingByProductIdAndChanneSlugLoader
            (models.ProductVariant.product_id (node variant)) slug;
          CollectionsByProductIdLoader (models.ProductVariant.product_id (node variant));
          DiscountsByDateTimeLoader (request_time (context info))]
       ∧ ∀ (fetch : Backend) (snapshot : option VariantPricingInfo.t),
           resolves_to fetch (ProductVariant.resolve_pricing variant info)
           = Fulfilled snapshot
           ↔ ∃ discounts loaded_product channel_listing collections,
               fetch (DiscountsByDateTimeLoader (request_time (context info)))
               = Fulfilled discounts
               ∧ fetch (ProductByIdLoader (models.ProductVariant.product_id (node variant)))
                 = Fulfilled loaded_product
               ∧ fetch (ProductChannelListingByProductIdAndChanneSlugLoader
                          (models.ProductVariant.product_id (node variant)) slug)
                 = Fulfilled channel_listing
               ∧ fetch (CollectionsByProductIdLoader
                          (models.ProductVariant.product_id (node variant)))
                 = Fulfilled collections
               ∧ snapshot = Some (VariantPricingInfo.of_dataclass
                   (get_variant_availability (node variant) loaded_product
                      channel_listing collections discounts (country (context info))
                      (currency (context info)) (plugins (context info)))))
  ∧ (∀ slug, channel_slug product = Some slug → slug ≠ "" →
       issued (Product.resolve_pricing product info)
       = [ProductChannelListingByProductIdAndChanneSlugLoader
            (models.Product.id (node product)) slug;
          ProductVariantsByProductIdLoader (models.Product.id (node product));
          CollectionsByProductIdLoader (models.Product.id (node product));
          DiscountsByDateTimeLoader (request_time (context info))]
       ∧ ∀ (fetch : Backend) (snapshot : option ProductPricingInfo.t),
           resolves_to fetch (Product.resolve_pricing product info) = Fulfilled snapshot
           ↔ ∃ discounts channel_listing variants collections,
               fetch (DiscountsByDateTimeLoader (request_time (context info)))
               = Fulfilled discounts
               ∧ fetch (ProductChannelListingByProductIdAndChanneSlugLoader
                          (models.Product.id (node product)) slug)
                 = Fulfilled channel_listing
               ∧ fetch (ProductVariantsByProductIdLoader (models.Product.id (node product)))
                 = Fulfilled variants
               ∧ fetch (CollectionsByProductIdLoader (models.Product.id (node product)))
                 = Fulfilled collections
               ∧ snapshot = Some (ProductPricingInfo.of_dataclass
                   (get_product_availability (node product) channel_listing variants
                      collections discounts (country (context info))
                      (currency (context info)) (plugins (context info))))).
Proof.
  repeat apply conj.
  - apply variant_pricing_without_channel.
  - apply product_pricing_without_channel.
  - intros slug Hslug Hnonempty. by apply variant_pricing_in_channel.
  - intros slug Hslug Hnonempty. by apply product_pricing_in_channel.
Qed.

End pricing.

(** On success the chain has waited for the discounts first and for the
    collections last, each of them a key issued by the resolver. *)
Lemma variant_pricing_awaits_issued {pricing_service : PricingService}
    (root : ProductVariant.Root) (info : ResolveInfo)
    (fetch : Backend) (promise : Promise (option VariantPricingInfo.t))
    (snapshot : option VariantPricingInfo.t) :
  outcome (ProductVariant.resolve_pricing root info) = inr promise →
  settle fetch promise = Fulfilled snapshot →
  awaited fetch promise ⊆ issued (ProductVariant.resolve_pricing root info).
Proof.
  unfold ProductVariant.resolve_pricing.
  destruct (truthy (channel_slug root)); simpl.
  - intros [= <-]. simpl.
    destruct (fetch (DiscountsByDateTimeLoader _)); simpl; [| done].
    destruct (fetch (ProductByIdLoader _)); simpl; [| done].
    destruct (fetch (ProductChannelListingByProductIdAndChanneSlugLoader _ _));
      simpl; [| done].
    destruct (fetch (CollectionsByProductIdLoader _)); simpl; [| done].
    intros _ k. rewrite !elem_of_cons. tauto.
  - intros [= <-] _. simpl. done.
Qed.

Example shirt_pricing :
  resolves_to fixtures.backend
    (@ProductVariant.resolve_pricing fixtures.pricing
       (Build_ChannelContext fixtures.shirt (Some "default-channel"))
       (fixtures.request fixtures.customer))
  = Fulfilled (Some {|
      VariantPricingInfo.on_sale := false;
      VariantPricingInfo.discount := None;
      VariantPricingInfo.discount_local_currency := None;
      VariantPricingInfo.price := fixtures.taxed 1000;
      VariantPricingInfo.price_undiscounted := fixtures.taxed 1000;
      VariantPricingInfo.price_local_currency := None;
    |}).
Proof. reflexivity. Qed.

Lemma pricing_needs_channel_and_all_loads_witness :
  let info := fixtures.request fixtures.customer in
  @ProductVariant.resolve_pricing fixtures.pricing
    (Build_ChannelContext fixtures.shirt None) info = returns (Value None)
  ∧ @Product.resolve_pricing fixtures.pricing
      (Build_ChannelContext fixtures.sneakers (Some "")) info = returns (Value None)
  ∧ issued (@ProductVariant.resolve_pricing fixtures.pricing
              (Build_ChannelContext fixtures.shirt (Some "default-channel")) info)
    = [ProductByIdLoader 1;
       ProductChannelListingByProductIdAndChanneSlugLoader 1 "default-channel";
       CollectionsByProductIdLoader 1;
       DiscountsByDateTimeLoader 1600000000]
  ∧ issued (@Product.resolve_pricing fixtures.pricing
              (Build_ChannelContext fixtures.sneakers (Some "default-channel")) info)
    = [ProductChannelListingByProductIdAndChanneSlugLoader 1 "default-channel";
       ProductVariantsByProductIdLoader 1;
       CollectionsByProductIdLoader 1;
       DiscountsByDateTimeLoader 1600000000].
Proof.
  intros info.
  destruct (@pricing_needs_channel_and_all_loads fixtures.pricing
              (Build_ChannelContext fixtures.shirt None)
              (Build_ChannelContext fixtures.sneakers (Some "")) info)
    as (Hvariant & Hproduct & _ & _).
  destruct (@pricing_needs_channel_and_all_loads fixtures.pricing
              (Build_ChannelContext fixtures.shirt (Some "default-channel"))
              (Build_ChannelContext fixtures.sneakers (Some "default-channel")) info)
    as (_ & _ & Hvariant_in & Hproduct_in).
  repeat apply conj.
  - apply Hvariant. reflexivity.
  - apply Hproduct. reflexivity.
  - apply (Hvariant_in "default-channel"); [reflexivity | discriminate].
  - apply (Hproduct_in "default-channel"); [reflexivity | discriminate].
Defined.

(** ** Availability of a product *)

Lemma channel_listing_exists_spec (db : Database) (product : models.Product.t)
    (slug : string) :
  Product.channel_listing_exists db product slug = true ↔ listed_in db slug product.
Proof.
  unfold Product.channel_listing_exists, listed_in.
  rewrite bool_decide_eq_true, Exists_exists.
  split; intros (l & Hl & Hmatch); exists l; by split.
Qed.

Section product_availability.
Context {warehouse_service : WarehouseService}.

(** C10. Without a channel slug on the wrapper ([None] or the empty string)
    [isAvailable] of a product is null, not a boolean. With a slug it is a
    boolean, true exactly when the product has a channel listing for the slug
    and is in stock for the country of the request. *)
Theorem product_is_available_in_channel (db : Database) (root : Product.Root)
    (info : ResolveInfo) :
  (truthy (channel_slug root) = false →
     Product.resolve_is_available db root info = returns None)
  ∧ (∀ slug, channel_slug root = Some slug → slug ≠ "" →
       ∃ b : bool,
         Product.resolve_is_available db root info = returns (Some b)
         ∧ (b = true ↔
              listed_in db slug (node root)
              ∧ is_product_in_stock (node root) (country (context info)) = true)).
Proof.
  unfold Product.resolve_is_available. split.
  - by intros ->.
  - intros slug Hslug Hnonempty.
    rewrite Hslug, (truthy_slug_true slug Hnonempty). simpl.
    eexists. split; [reflexivity |].
    by rewrite andb_true_iff, channel_listing_exists_spec.
Qed.

End product_availability.

Lemma product_is_available_in_channel_witness :
  let info := fixtures.request fixtures.customer in
  @Product.resolve_is_available fixtures.warehouse fixtures.db
    (Build_ChannelContext fixtures.sneakers None) info = returns None
  ∧ ∃ b : bool,
      @Product.resolve_is_available fixtures.warehouse fixtures.db
        (Build_ChannelContext fixtures.sneakers (Some "default-channel")) info
      = returns (Some b)
      ∧ (b = true ↔
           listed_in fixtures.db "default-channel" fixtures.sneakers
           ∧ @is_product_in_stock fixtures.warehouse fixtures.sneakers "US" = true).
Proof.
  intros info. split.
  - apply (@product_is_available_in_channel fixtures.warehouse fixtures.db
             (Build_ChannelContext fixtures.sneakers None) info).
    reflexivity.
  - destruct (@product_is_available_in_channel fixtures.warehouse fixtures.db
                (Build_ChannelContext fixtures.sneakers (Some "default-channel")) info)
      as [_ Hpresent].
    apply (Hpresent "default-channel"); [reflexivity | discriminate].
Defined.

Example sneakers_available :
  @Product.resolve_is_available fixtures.warehouse fixtures.db
    (Build_ChannelContext fixtures.sneakers (Some "default-channel"))
    (fixtures.request fixtures.customer)
  = returns (Some true).
Proof. vm_compute. reflexivity. Qed.

Example sneakers_not_listed_elsewhere :
  @Product.resolve_is_available fixtures.warehouse fixtures.db
    (Build_ChannelContext fixtures.sneakers (Some "channel-pln"))
    (fixtures.request fixtures.customer)
  = returns (Some false).
Proof. vm_compute. reflexivity. Qed.

(** ** Product images *)

Section product_image.
Context {image_service : ImageService}.

(** C8. With no size the [url] of a product image is the stored URL of the
    original image, with a positive size it is the URL of the thumbnail
    rendered at that size; either is handed to the request to be made
    absolute. *)
Theorem image_url_original_or_thumbnail (root : models.ProductImage.t) (info : ResolveInfo) :
  ProductImage.resolve_url root info None
  = returns (build_absolute_uri (context info)
               (models.ProductImage.url (models.ProductImage.image root)))
  ∧ ∀ size : Z, size > 0 →
      ProductImage.resolve_url root info (Some size)
      = returns (build_absolute_uri (context info)
                   (get_thumbnail (models.ProductImage.image root) size "thumbnail")).
Proof.
  split; [done |]. intros size Hpositive. unfold ProductImage.resolve_url. simpl.
  change (truthy (Some size)) with (negb (size =? 0)).
  destruct (Z.eqb_spec size 0) as [-> | _]; [lia | done].
Qed.

End product_image.

Lemma image_url_original_or_thumbnail_witness :
  @ProductImage.resolve_url fixtures.images fixtures.picture
    (fixtures.request fixtures.customer) (Some 200)
  = returns "https://shop.example/media/products/sneakers.jpg?thumbnail=200".
Proof.
  destruct (@image_url_original_or_thumbnail fixtures.images fixtures.picture
              (fixtures.request fixtures.customer)) as [_ Hsized].
  rewrite (Hsized 200); [| lia]. vm_compute. reflexivity.
Defined.

(** ** Fields behind the permission gate *)

Section gated_fields.
Context {pricing_service : PricingService} {warehouse_service : WarehouseService}
  {reporting_service : ReportingService} {metadata_store : MetadataStore}.

Lemma gated_field_names :
  field <$> variant_gated_resolvers
  = ["stocks"; "digitalContent"; "margin"; "costPrice"; "price"; "quantity";
     "quantityOrdered"; "quantityAllocated"; "revenue"; "privateMeta"]
  ∧ field <$> product_gated_resolvers
    = ["purchaseCost"; "margin"; "channelListing"; "privateMeta"].
Proof. split; reflexivity. Qed.

(** C1. Every gated field of a variant or of a product (margin, costPrice,
    price, quantity, quantityAllocated, quantityOrdered, revenue, stocks,
    digitalContent, purchaseCost, channelListing, privateMeta): when the
    requester lacks the permission to manage products, resolving it raises
    the authorization error that names that permission, so nothing is
    returned and nothing is loaded; when the requester holds it, the result is
    that of the wrapped resolver, unchanged. *)
Theorem gated_fields_require_manage_products (g : GatedResolver) :
  g ∈ variant_gated_resolvers ++ product_gated_resolvers →
  ∀ (args : Args g) (root : Root g) (info : ResolveInfo),
    (MANAGE_PRODUCTS ∉ effective_permissions (user (context info)) →
       resolver g args root info = raises (PermissionDenied MANAGE_PRODUCTS))
    ∧ (MANAGE_PRODUCTS ∈ effective_permissions (user (context info)) →
         resolver g args root info = wrapped g args root info).
Proof.
  intros Hgated args root info.
  apply elem_of_app in Hgated as [Hgated | Hgated];
    unfold variant_gated_resolvers, product_gated_resolvers in Hgated;
    repeat (apply elem_of_cons in Hgated as [-> | Hgated]);
    try (by apply elem_of_nil in Hgated);
    (split; intros Hperm;
      [by apply permission_required_denied | by apply permission_required_granted]).
Qed.

(** C9. For a requester who may manage products, [quantityOrdered] of a
    variant without the [quantity_ordered] annotation is null, not a failure;
    with the annotation it is the annotated value, unchanged. *)
Theorem quantity_ordered_is_optional_annotation (root : ProductVariant.Root)
    (info : ResolveInfo) :
  MANAGE_PRODUCTS ∈ effective_permissions (user (context info)) →
  (models.ProductVariant.annotations (node root) !! "quantity_ordered" = None →
     ProductVariant.resolve_quantity_ordered root info = returns PyNone)
  ∧ (∀ quantity_ordered : Py.value,
       models.ProductVariant.annotations (node root) !! "quantity_ordered"
       = Some quantity_ordered →
       ProductVariant.resolve_quantity_ordered root info = returns quantity_ordered).
Proof.
  intros Hperm. unfold ProductVariant.resolve_quantity_ordered.
  rewrite permission_required_granted by done.
  unfold ProductVariant.wrapped_resolve_quantity_ordered, Py.getattr. simpl.
  unfold models.ProductVariant.lookup. rewrite !decide_False by done.
  split; [by intros -> | by intros v ->].
Qed.

End gated_fields.

Lemma gated_fields_require_manage_products_witness :
  let root := Build_ChannelContext fixtures.shirt (Some "default-channel") in
  @ProductVariant.resolve_stocks fixtures.warehouse root
    (fixtures.request fixtures.customer) (Some "US")
  = raises (PermissionDenied MANAGE_PRODUCTS)
  ∧ @ProductVariant.resolve_stocks fixtures.warehouse root
      (fixtures.request fixtures.staff) (Some "US")
    = @ProductVariant.wrapped_resolve_stocks fixtures.warehouse (Some "US") root
        (fixtures.request fixtures.staff).
Proof.
  intros root.
  pose proof (@gated_fields_require_manage_products fixtures.pricing fixtures.warehouse
                fixtures.reporting fixtures.metadata
                {| field := "stocks";
                   resolver := λ country_code root info,
                     @ProductVariant.resolve_stocks fixtures.warehouse root info country_code;
                   wrapped := @ProductVariant.wrapped_resolve_stocks fixtures.warehouse |})
    as Hstocks.
  split.
  - apply (Hstocks (list_elem_of_here _ _) (Some "US") root
             (fixtures.request fixtures.customer)).
    simpl. apply not_elem_of_nil.
  - apply (Hstocks (list_elem_of_here _ _) (Some "US") root
             (fixtures.request fixtures.staff)).
    simpl. apply list_elem_of_here.
Defined.

Lemma quantity_ordered_is_optional_annotation_witness :
  ProductVariant.resolve_quantity_ordered
    (Build_ChannelContext fixtures.shirt None) (fixtures.request fixtures.staff)
  = returns PyNone
  ∧ ProductVariant.resolve_quantity_ordered
      (Build_ChannelContext fixtures.reported_shirt None) (fixtures.request fixtures.staff)
    = returns (PyInt 3).
Proof.
  split.
  - destruct (quantity_ordered_is_optional_annotation
                (Build_ChannelContext fixtures.shirt None)
                (fixtures.request fixtures.staff)) as [Habsent _].
    + simpl. apply list_elem_of_here.
    + apply Habsent. reflexivity.
  - destruct (quantity_ordered_is_optional_annotation
                (Build_ChannelContext fixtures.reported_shirt None)
                (fixtures.request fixtures.staff)) as [_ Hpresent].
    + simpl. apply list_elem_of_here.
    + apply Hpresent. reflexivity.
Defined.

Example customer_cannot_read_cost_price :
  ProductVariant.resolve_cost_price
    (Build_ChannelContext fixtures.shirt None) (fixtures.request fixtures.customer)
  = {| issued := []; outcome := inl (PermissionDenied MANAGE_PRODUCTS) |}.
Proof. reflexivity. Qed.

(** ** Products of a category *)

Lemma Category_ind (P : models.Category.t → Prop) :
  (∀ id slug children, Forall P children → P (models.Category.Build_t id slug children)) →
  ∀ c, P c.
Proof.
  intros Hstep. fix IH 1. intros [id slug children]. apply Hstep.
  induction children as [| child children IHchildren]; constructor;
    [apply IH | apply IHchildren].
Qed.

Lemma subtree_unfold (c : models.Category.t) :
  models.Category.subtree c = c :: (models.Category.children c ≫= models.Category.subtree).
Proof. by destruct c. Qed.

Lemma elem_of_subtree (d c : models.Category.t) :
  d ∈ models.Category.subtree c ↔ descends_from d c.
Proof.
  split.
  - revert d. induction c as [id slug children IH] using Category_ind. intros d.
    rewrite subtree_unfold, elem_of_cons, list_elem_of_bind. simpl.
    intros [-> | (child & Hd & Hchild)]; [constructor |].
    apply descends_child with child; [done |].
    rewrite Forall_forall in IH. by apply IH.
  - induction 1 as [c | d child c Hchild _ IH]; rewrite subtree_unfold.
    + apply list_elem_of_here.
    + apply list_elem_of_further, list_elem_of_bind. by exists child.
Qed.

Lemma elem_of_get_descendants (d c : models.Category.t) :
  d ∈ models.Category.get_descendants c true ↔ descends_from d c.
Proof. apply elem_of_subtree. Qed.

Lemma elem_of_published (db : Database) (slug : string) (p : models.Product.t) :
  p ∈ published db slug ↔ p ∈ products db ∧ published_in db slug p.
Proof.
  unfold published, published_in. rewrite list_elem_of_bind. split.
  - intros (p' & Hrow & Hp'). apply list_elem_of_bind in Hrow as (l & Hrow & Hl).
    case_decide as Hmatch; [| by apply elem_of_nil in Hrow].
    apply list_elem_of_singleton in Hrow as ->. split; [done |]. by exists l.
  - intros (Hp & l & Hl & Hmatch). exists p. split; [| done].
    apply list_elem_of_bind. exists l. split; [| done].
    rewrite decide_True by done. apply list_elem_of_here.
Qed.

Lemma category_in_spec (root : models.Category.t) (p : models.Product.t) :
  Category.category_in (models.Category.get_descendants root true) p
  ↔ ∃ category, descends_from category root
                ∧ models.Product.category_id p = Some (models.Category.id category).
Proof.
  unfold Category.category_in. destruct (models.Product.category_id p) as [c |].
  - rewrite list_elem_of_fmap. split.
    + intros (category & -> & Hbelow). exists category.
      by rewrite <- elem_of_get_descendants.
    + intros (category & Hbelow & [= ->]). exists category.
      by rewrite elem_of_get_descendants.
  - split; [done | by intros (? & _ & ?)].
Qed.

(** C7. Asked for the products of a category with no channel, the resolver
    looks the default channel up: with none configured it fails with an
    error; otherwise it returns, under the slug of the default channel, each
    product once that is published in that channel and sits in the category
    itself or in any category below it. *)
Theorem category_products_default_channel (db : Database) (root : models.Category.t)
    (info : ResolveInfo) :
  (default_channel db = None →
     ∃ message, Category.resolve_products db root info None = raises (GraphQLError message))
  ∧ (∀ channel, default_channel db = Some channel →
       ∃ found,
         Category.resolve_products db root info None
         = returns {| qs := found; qs_channel_slug := models.Channel.slug channel |}
         ∧ NoDup found
         ∧ ∀ p, p ∈ found ↔
             p ∈ products db
             ∧ published_in db (models.Channel.slug channel) p
             ∧ ∃ category,
                 descends_from category root
                 ∧ models.Product.category_id p = Some (models.Category.id category)).
Proof.
  unfold Category.resolve_products, get_default_channel_or_graphql_error. split.
  - intros ->. by eexists.
  - intros channel ->. eexists. split; [reflexivity |]. split; [apply NoDup_remove_dups |].
    intros p. rewrite elem_of_remove_dups, list_elem_of_filter, elem_of_published,
      category_in_spec.
    split; [intros (Hbelow & Hrow & Hpublished) | intros (Hrow & Hpublished & Hbelow)];
      done.
Qed.

Lemma category_products_default_channel_witness :
  ∃ found,
    Category.resolve_products fixtures.db fixtures.apparel
      (fixtures.request fixtures.customer) None
    = returns {| qs := found; qs_channel_slug := "default-channel" |}
    ∧ fixtures.sneakers ∈ found.
Proof.
  destruct (category_products_default_channel fixtures.db fixtures.apparel
              (fixtures.request fixtures.customer)) as [_ Hdefault].
  destruct (Hdefault {| models.Channel.id := 1; models.Channel.slug := "default-channel" |})
    as (found & Hfound & _ & Hmember); [reflexivity |].
  exists found. split; [exact Hfound |].
  apply Hmember. split; [apply list_elem_of_here |]. split.
  - eexists. split; [apply list_elem_of_here | done].
  - exists fixtures.shoes. split; [| reflexivity].
    apply descends_child with fixtures.shoes; [apply list_elem_of_here | constructor].
Defined.

(** The example of the specification: product P in the descendant category
    "shoes" is returned for the parent category when no channel is given. *)
Example category_products_include_descendant :
  Category.resolve_products fixtures.db fixtures.apparel
    (fixtures.request fixtures.customer) None
  = returns {| qs := [fixtures.sneakers]; qs_channel_slug := "default-channel" |}.
Proof. vm_compute. reflexivity. Qed.

(** * Further properties *)

(** ** Inventory fields of a variant, taken together *)

Section variant_inventory_together.
Context {settings : Settings}.

(** X1. Provided the configured maximum quantity is positive, [isAvailable]
    and [stockQuantity] of a variant never disagree: whatever the persistence
    layer holds, [isAvailable] is true exactly when [stockQuantity] is
    positive, and it fails with the same error when [stockQuantity] fails.
    [stockQuantity] itself is [quantityAvailable] asked for the country of the
    request. *)
Theorem is_available_agrees_with_stock_quantity (root : ProductVariant.Root)
    (info : ResolveInfo) (fetch : Backend) :
  MAX_CHECKOUT_LINE_QUANTITY > 0 →
  resolves_to fetch (ProductVariant.resolve_is_available root info)
  = match resolves_to fetch (ProductVariant.resolve_stock_quantity root info) with
    | Fulfilled quantity => Fulfilled (bool_decide (quantity > 0))
    | Rejected e => Rejected e
    end
  ∧ ProductVariant.resolve_stock_quantity root info
    = ProductVariant.resolve_quantity_available root info (Some (country (context info))).
Proof.
  intros Hpositive. split; [| reflexivity].
  unfold ProductVariant.resolve_is_available, ProductVariant.resolve_stock_quantity.
  destruct (models.ProductVariant.track_inventory (node root)); simpl.
  - unfold resolves_to. simpl. by destruct (fetch _).
  - unfold resolves_to. simpl. by rewrite bool_decide_eq_true_2.
Qed.

(** X2. For a variant that tracks inventory, [quantityAvailable] queues the
    one key made of the variant id and the country code it was given ([None]
    when the query gives none) and comes to exactly what the loader yields for
    that key: a quantity is passed on as it is, zero and negative included,
    and a failed batch fails the field; the maximum quantity is never put in
    its place. *)
Theorem tracked_quantity_is_the_loaded_one (root : ProductVariant.Root)
    (info : ResolveInfo) (country_code : option Country) (fetch : Backend) :
  models.ProductVariant.track_inventory (node root) = true →
  issued (ProductVariant.resolve_quantity_available root info country_code)
  = [AvailableQuantityByProductVariantIdAndCountryCodeLoader
       (models.ProductVariant.id (node root)) country_code]
  ∧ resolves_to fetch (ProductVariant.resolve_quantity_available root info country_code)
    = fetch (AvailableQuantityByProductVariantIdAndCountryCodeLoader
               (models.ProductVariant.id (node root)) country_code).
Proof.
  intros Htracked. unfold ProductVariant.resolve_quantity_available.
  rewrite Htracked. simpl. split; [done |].
  unfold resolves_to. simpl. by destruct (fetch _).
Qed.

End variant_inventory_together.

Lemma is_available_agrees_with_stock_quantity_witness :
  let root := Build_ChannelContext fixtures.shirt None in
  let info := fixtures.request fixtures.customer in
  resolves_to samples.failing_backend (ProductVariant.resolve_is_available root info)
  = Rejected (UpstreamFailure "warehouse unavailable").
Proof.
  intros root info.
  destruct (@is_available_agrees_with_stock_quantity fixtures.settings root info
              samples.failing_backend) as [Hagree _]; [reflexivity |].
  rewrite Hagree. reflexivity.
Defined.

Lemma tracked_quantity_is_the_loaded_one_witness :
  let root := Build_ChannelContext fixtures.shirt None in
  let info := fixtures.request fixtures.customer in
  resolves_to fixtures.backend
    (@ProductVariant.resolve_quantity_available fixtures.settings root info None)
  = Fulfilled 5.
Proof.
  intros root info.
  destruct (@tracked_quantity_is_the_loaded_one fixtures.settings root info None
              fixtures.backend) as [_ Hloaded]; [reflexivity |].
  rewrite Hloaded. reflexivity.
Defined.

(** ** Pricing: failures and shared keys *)

Section pricing_failures.
Context {pricing_service : PricingService}.

(** X3. With a channel slug, the [pricing] field of a variant fails exactly
    when one of its four batches fails, and with the error of the first
    failing batch in the order the chain waits for them: discounts, product,
    channel listing, collections. A failure further down the chain is only
    seen when every batch before it was fetched. *)
Theorem variant_pricing_fails_with_first_failed_batch (root : ProductVariant.Root)
    (info : ResolveInfo) (slug : string) (fetch : Backend) (e : Error) :
  channel_slug root = Some slug → slug ≠ "" →
  resolves_to fetch (ProductVariant.resolve_pricing root info) = Rejected e
  ↔ fetch (DiscountsByDateTimeLoader (request_time (context info))) = Rejected e
    ∨ (∃ discounts,
         fetch (DiscountsByDateTimeLoader (request_time (context info)))
         = Fulfilled discounts
         ∧ (fetch (ProductByIdLoader (models.ProductVariant.product_id (node root)))
            = Rejected e
            ∨ ∃ product,
                fetch (ProductByIdLoader (models.ProductVariant.product_id (node root)))
                = Fulfilled product
                ∧ (fetch (ProductChannelListingByProductIdAndChanneSlugLoader
                            (models.ProductVariant.product_id (node root)) slug)
                   = Rejected e
                   ∨ ∃ channel_listing,
                       fetch (ProductChannelListingByProductIdAndChanneSlugLoader
                                (models.ProductVariant.product_id (node root)) slug)
                       = Fulfilled channel_listing
                       ∧ fetch (CollectionsByProductIdLoader
                                  (models.ProductVariant.product_id (node root)))
                         = Rejected e))).
Proof.
  intros Hslug Hnonempty. unfold ProductVariant.resolve_pricing.
  rewrite Hslug, (truthy_slug_true slug Hnonempty). unfold resolves_to. simpl.
  destruct (fetch (DiscountsByDateTimeLoader _)) as [discounts | e0]; simpl;
    [| by split; [intros [= ->]; left | intros [[= ->] | (? & [=] & _)]]].
  destruct (fetch (ProductByIdLoader _)) as [product | e0]; simpl;
    [| split;
       [intros [= ->]; right; exists discounts; split; [done | by left]
       | intros [[=] | (? & _ & [[= ->] | (? & [=] & _)])]; done]].
  destruct (fetch (ProductChannelListingByProductIdAndChanneSlugLoader _ _))
    as [channel_listing | e0]; simpl;
    [| split;
       [intros [= ->]; right; exists discounts; split; [done |];
        right; exists product; split; [done | by left]
       | intros [[=] | (? & _ & [[=] | (? & _ & [[= ->] | (? & [=] & _)])])]; done]].
  destruct (fetch (CollectionsByProductIdLoader _)) as [collections | e0]; simpl.
  - split; [done |].
    intros [[=] | (? & _ & [[=] | (? & _ & [[=] | (? & _ & [=])])])].
  - split.
    + intros [= ->]. right. exists discounts. split; [done |].
      right. exists product. split; [done |]. right. by exists channel_listing.
    + by intros [[=] | (? & _ & [[=] | (? & _ & [[=] | (? & _ & [= ->])])])].
Qed.

(** X4. With a channel slug, the [pricing] field of a product fails exactly
    when one of its four batches fails, and with the error of the first
    failing batch in the order the chain waits for them: discounts, channel
    listing, variants, collections. *)
Theorem product_pricing_fails_with_first_failed_batch (root : Product.Root)
    (info : ResolveInfo) (slug : string) (fetch : Backend) (e : Error) :
  channel_slug root = Some slug → slug ≠ "" →
  resolves_to fetch (Product.resolve_pricing root info) = Rejected e
  ↔ fetch (DiscountsByDateTimeLoader (request_time (context info))) = Rejected e
    ∨ (∃ discounts,
         fetch (DiscountsByDateTimeLoader (request_time (context info)))
         = Fulfilled discounts
         ∧ (fetch (ProductChannelListingByProductIdAndChanneSlugLoader
                     (models.Product.id (node root)) slug)
            = Rejected e
            ∨ ∃ channel_listing,
                fetch (ProductChannelListingByProductIdAndChanneSlugLoader
                         (models.Product.id (node root)) slug)
                = Fulfilled channel_listing
                ∧ (fetch (ProductVariantsByProductIdLoader (models.Product.id (node root)))
                   = Rejected e
                   ∨ ∃ variants,
                       fetch (ProductVariantsByProductIdLoader
                                (models.Product.id (node root)))
                       = Fulfilled variants
                       ∧ fetch (CollectionsByProductIdLoader
                                  (models.Product.id (node root)))
                         = Rejected e))).
Proof.
  intros Hslug Hnonempty. unfold Product.resolve_pricing.
  rewrite Hslug, (truthy_slug_true slug Hnonempty). unfold resolves_to. simpl.
  destruct (fetch (DiscountsByDateTimeLoader _)) as [discounts | e0]; simpl;
    [| by split; [intros [= ->]; left | intros [[= ->] | (? & [=] & _)]]].
  destruct (fetch (ProductChannelListingByProductIdAndChanneSlugLoader _ _))
    as [channel_listing | e0]; simpl;
    [| split;
       [intros [= ->]; right; exists discounts; split; [done | by left]
       | intros [[=] | (? & _ & [[= ->] | (? & [=] & _)])]; done]].
  destruct (fetch (ProductVariantsByProductIdLoader _)) as [variants | e0]; simpl;
    [| split;
       [intros [= ->]; right; exists discounts; split; [done |];
        right; exists channel_listing; split; [done | by left]
       | intros [[=] | (? & _ & [[=] | (? & _ & [[= ->] | (? & [=] & _)])])]; done]].
  destruct (fetch (CollectionsByProductIdLoader _)) as [collections | e0]; simpl.
  - split; [done |].
    intros [[=] | (? & _ & [[=] | (? & _ & [[=] | (? & _ & [=])])])].
  - split.
    + intros [= ->]. right. exists discounts. split; [done |].
      right. exists channel_listing. split; [done |]. right. by exists variants.
    + by intros [[=] | (? & _ & [[=] | (? & _ & [[=] | (? & _ & [= ->])])])].
Qed.

End pricing_failures.

Lemma variant_pricing_fails_with_first_failed_batch_witness :
  resolves_to
    (samples.backend_failing_at (CollectionsByProductIdLoader 1)
       (UpstreamFailure "collections unavailable"))
    (@ProductVariant.resolve_pricing fixtures.pricing
       (Build_ChannelContext fixtures.shirt (Some "default-channel"))
       (fixtures.request fixtures.customer))
  = Rejected (UpstreamFailure "collections unavailable").
Proof.
  apply (@variant_pricing_fails_with_first_failed_batch fixtures.pricing
           (Build_ChannelContext fixtures.shirt (Some "default-channel"))
           (fixtures.request fixtures.customer) "default-channel");
    [reflexivity | discriminate |].
  right. exists []. split; [reflexivity |].
  right. exists (Some fixtures.sneakers). split; [reflexivity |].
  right. exists None. split; reflexivity.
Defined.

Lemma product_pricing_fails_with_first_failed_batch_witness :
  resolves_to
    (samples.backend_failing_at (DiscountsByDateTimeLoader 1600000000)
       (UpstreamFailure "discounts unavailable"))
    (@Product.resolve_pricing fixtures.pricing
       (Build_ChannelContext fixtures.sneakers (Some "default-channel"))
       (fixtures.request fixtures.customer))
  = Rejected (UpstreamFailure "discounts unavailable").
Proof.
  apply (@product_pricing_fails_with_first_failed_batch fixtures.pricing
           (Build_ChannelContext fixtures.sneakers (Some "default-channel"))
           (fixtures.request fixtures.customer) "default-channel");
    [reflexivity | discriminate |].
  left. reflexivity.
Defined.

Section shared_keys.
Context {pricing_service : PricingService}.

(** X5. The [pricing] field asks the loaders for nothing the sibling fields
    would not ask for under the same key: with a channel slug, the key that
    [product] of a variant queues is among the keys its [pricing] queues, and
    the key that [variants] of a product queues is among the keys its
    [pricing] queues; the pricing of a variant and the pricing of its product
    in the same channel queue the same listing, collections and discounts
    keys. *)
Theorem pricing_shares_keys_with_sibling_fields (variant : ProductVariant.Root)
    (product : Product.Root) (info : ResolveInfo) (slug : string) :
  channel_slug variant = Some slug → channel_slug product = Some slug → slug ≠ "" →
  models.ProductVariant.product_id (node variant) = models.Product.id (node product) →
  issued (ProductVariantFields.resolve_product variant info)
    ⊆ issued (ProductVariant.resolve_pricing variant info)
  ∧ issued (ProductFields.resolve_variants product info)
      ⊆ issued (Product.resolve_pricing product info)
  ∧ ∀ k, k ∈ issued (ProductVariant.resolve_pricing variant info) →
         k ∈ issued (Product.resolve_pricing product info)
         ∨ k = ProductByIdLoader (models.Product.id (node product)).
Proof.
  intros Hvariant Hproduct Hnonempty Hsame.
  unfold ProductVariant.resolve_pricing, Product.resolve_pricing,
    ProductVariantFields.resolve_product, ProductFields.resolve_variants.
  rewrite Hvariant, Hproduct, (truthy_slug_true slug Hnonempty), Hsame. simpl.
  repeat split.
  - intros k. rewrite !elem_of_cons. tauto.
  - intros k. rewrite !elem_of_cons. tauto.
  - intros k. rewrite !elem_of_cons. tauto.
Qed.

End shared_keys.

Lemma pricing_shares_keys_with_sibling_fields_witness :
  issued (ProductVariantFields.resolve_product
            (Build_ChannelContext fixtures.shirt (Some "default-channel"))
            (fixtures.request fixtures.customer))
  ⊆ issued (@ProductVariant.resolve_pricing fixtures.pricing
              (Build_ChannelContext fixtures.shirt (Some "default-channel"))
              (fixtures.request fixtures.customer)).
Proof.
  apply (@pricing_shares_keys_with_sibling_fields fixtures.pricing
           (Build_ChannelContext fixtures.shirt (Some "default-channel"))
           (Build_ChannelContext fixtures.sneakers (Some "default-channel"))
           (fixtures.request fixtures.customer) "default-channel");
    [reflexivity | reflexivity | discriminate | reflexivity].
Defined.

(** ** Images *)

Section image_sizes.
Context {image_service : ImageService}.

(** X7. The [url] of a product image tests its size for truth, not for being
    given: size 0 resolves like no size at all, to the stored URL of the
    original, and every other size, a negative one included, is handed to the
    thumbnail renderer as it is. *)
Theorem image_url_size_is_tested_for_truth (root : models.ProductImage.t)
    (info : ResolveInfo) :
  ProductImage.resolve_url root info (Some 0) = ProductImage.resolve_url root info None
  ∧ ∀ size : Z, size ≠ 0 →
      ProductImage.resolve_url root info (Some size)
      = returns (build_absolute_uri (context info)
                   (get_thumbnail (models.ProductImage.image root) size "thumbnail")).
Proof.
  split; [reflexivity |]. intros size Hnonzero.
  unfold ProductImage.resolve_url. simpl.
  change (truthy (Some size)) with (negb (size =? 0)).
  destruct (Z.eqb_spec size 0) as [-> | _]; done.
Qed.

End image_sizes.

Lemma image_url_size_is_tested_for_truth_witness :
  @ProductImage.resolve_url fixtures.images fixtures.picture
    (fixtures.request fixtures.customer) (Some (-1))
  = returns "https://shop.example/media/products/sneakers.jpg?thumbnail=-1".
Proof.
  destruct (@image_url_size_is_tested_for_truth fixtures.images fixtures.picture
              (fixtures.request fixtures.customer)) as [_ Hsized].
  rewrite (Hsized (-1)); [| lia]. vm_compute. reflexivity.
Defined.

Lemma settle_map_promise {K} (loaded : K → Type) {A B}
    (fetch : deferred.backend loaded) (r : deferred.resolution loaded A)
    (f : A → B) :
  deferred.resolves_to fetch
    (deferred.map_promise loaded r (λ a, deferred.value (f a)))
  = match deferred.resolves_to fetch r with
    | Fulfilled a => Fulfilled (f a)
    | Rejected e => Rejected e
    end.
Proof.
  unfold deferred.resolves_to, deferred.map_promise. simpl.
  induction (deferred.returned r) as [a | k callback IH]; simpl; [done |].
  destruct (fetch k); [apply IH | done].
Qed.

Section thumbnails.
Context {thumbnails : ProductThumbnails} {image_service : ImageService}.

(** X8. The [thumbnail] of a product queues the images of the product and
    nothing else, under the very key the [images] field queues. It is null
    exactly when the product has no image; otherwise it is made from the first
    image alone, whatever images follow: its alt text, and the URL of its
    thumbnail rendered at the given size, or at 255 when the query gives none,
    made absolute by the request. A failed batch fails the field. *)
Theorem thumbnail_is_of_first_image (root : Product.Root) (info : ResolveInfo)
    (size : option Z) (fetch : CatalogueBackend) :
  deferred.issued (ProductFields.resolve_thumbnail root info size)
  = [ImagesByProductIdLoader (models.Product.id (node root))]
  ∧ deferred.issued (ProductFields.resolve_thumbnail root info size)
    = deferred.issued (ProductFields.resolve_images root info)
  ∧ (∀ e, fetch (ImagesByProductIdLoader (models.Product.id (node root))) = Rejected e →
          deferred.resolves_to fetch (ProductFields.resolve_thumbnail root info size)
          = Rejected e)
  ∧ (∀ images,
       fetch (ImagesByProductIdLoader (models.Product.id (node root))) = Fulfilled images →
       ∃ thumbnail,
         deferred.resolves_to fetch (ProductFields.resolve_thumbnail root info size)
         = Fulfilled thumbnail
         ∧ (thumbnail = None ↔ images = [])
         ∧ ∀ first rest, images = first :: rest →
             thumbnail = Some {|
               Image.alt := models.ProductImage.alt first;
               Image.url :=
                 build_absolute_uri (context info)
                   (get_product_image_thumbnail first (default 255 size) "thumbnail");
             |}).
Proof.
  split; [reflexivity |]. split; [reflexivity |].
  unfold ProductFields.resolve_thumbnail. split.
  - intros e Hfailed. rewrite settle_map_promise.
    unfold deferred.resolves_to. simpl. by rewrite Hfailed.
  - intros images Hloaded. rewrite settle_map_promise.
    unfold deferred.resolves_to. simpl. rewrite Hloaded. simpl.
    eexists. split; [reflexivity |].
    destruct images as [| first rest]; simpl.
    + split; [done |]. intros ? ? [=].
    + split; [done |]. by intros ? ? [= <- <-].
Qed.

End thumbnails.

Lemma thumbnail_is_of_first_image_witness :
  deferred.resolves_to samples.backend
    (@ProductFields.resolve_thumbnail samples.thumbnails fixtures.images
       (Build_ChannelContext fixtures.sneakers None)
       (fixtures.request fixtures.customer) None)
  = Fulfilled (Some {|
      Image.url := "https://shop.example/media/products/sneakers.jpg?thumbnail=255";
      Image.alt := "Sneakers";
    |}).
Proof.
  destruct (@thumbnail_is_of_first_image samples.thumbnails fixtures.images
              (Build_ChannelContext fixtures.sneakers None)
              (fixtures.request fixtures.customer) None samples.backend)
    as (_ & _ & _ & Hloaded).
  destruct (Hloaded [fixtures.picture; samples.side_view])
    as (thumbnail & -> & _ & Hfirst); [reflexivity |].
  rewrite (Hfirst fixtures.picture [samples.side_view]); [| reflexivity].
  vm_compute. reflexivity.
Defined.

(** ** Looking a record up by key *)

Section get_by_pk.
Context {A : Type} {model : models.Model A}.

Lemma get_by_pk_Got (rows : list A) (pk : Z) (row : A) :
  get_by_pk rows pk = Got row → row ∈ rows ∧ models.pk row = pk.
Proof.
  unfold get_by_pk. intros Hgot.
  assert (row ∈ filter (λ r, models.pk r = pk) rows) as Hrow.
  { destruct (filter _ rows) as [| r [| ? ?]]; [done | | done].
    injection Hgot as ->. apply list_elem_of_here. }
  apply list_elem_of_filter in Hrow. tauto.
Qed.

Lemma get_by_pk_DoesNotExist (rows : list A) (pk : Z) :
  get_by_pk rows pk = DoesNotExist ↔ ∀ row, row ∈ rows → models.pk row ≠ pk.
Proof.
  unfold get_by_pk. split.
  - intros Hnone row Hrow Hpk.
    assert (row ∈ filter (λ r, models.pk r = pk) rows) as Hfound
      by by apply list_elem_of_filter.
    destruct (filter _ rows) as [| r [| ? ?]]; [| done | done].
    by apply elem_of_nil in Hfound.
  - intros Hnone.
    destruct (filter _ rows) as [| r rest] eqn:Hfilter; [done |].
    assert (r ∈ filter (λ r, models.pk r = pk) rows) as Hr
      by (rewrite Hfilter; apply list_elem_of_here).
    apply list_elem_of_filter in Hr as [Hpk Hr]. by destruct (Hnone r Hr).
Qed.

Lemma filter_by_unique_pk (rows : list A) (pk : Z) (row : A) :
  NoDup (models.pk <$> rows) → row ∈ rows → models.pk row = pk →
  filter (λ r, models.pk r = pk) rows = [row].
Proof.
  induction rows as [| r rows IH]; intros Hunique Hrow Hpk.
  - by apply elem_of_nil in Hrow.
  - rewrite fmap_cons in Hunique. apply NoDup_cons in Hunique as [Hfresh Hunique].
    apply elem_of_cons in Hrow as [<- | Hrow].
    + rewrite filter_cons_True by done. f_equal.
      destruct (filter _ rows) as [| r' rest] eqn:Hfilter; [done |].
      assert (r' ∈ filter (λ r, models.pk r = pk) rows) as Hr'
        by (rewrite Hfilter; apply list_elem_of_here).
      apply list_elem_of_filter in Hr' as [Hpk' Hr'].
      destruct Hfresh. rewrite Hpk, <- Hpk'. by apply list_elem_of_fmap_2.
    + rewrite filter_cons_False; [by apply IH |].
      intros Hpk'. destruct Hfresh. rewrite Hpk', <- Hpk. by apply list_elem_of_fmap_2.
Qed.

Lemma get_by_pk_unique (rows : list A) (pk : Z) (row : A) :
  NoDup (models.pk <$> rows) → row ∈ rows → models.pk row = pk →
  get_by_pk rows pk = Got row.
Proof.
  intros Hunique Hrow Hpk. unfold get_by_pk.
  by rewrite (filter_by_unique_pk rows pk row).
Qed.

End get_by_pk.

Section image_by_id.
Context {managers : CatalogueManagers} {global_ids : GlobalIds}.

(** X9. [imageById] of a product, for an identifier that stands for the
    primary key [pk]: an image it returns is an image of that product with
    that key, never the image of another product; it fails with "Product
    image not found." exactly when no image of the product has the key; and
    when the keys of the images of the product are distinct, the image of the
    product with the key is returned. An identifier that does not decode
    fails with the error of the decoding. *)
Theorem image_by_id_finds_own_image_or_fails (root : Product.Root) (info : ResolveInfo)
    (id : string) :
  (∀ e, get_database_id info id "ProductImage" = inl e →
        ProductFields.resolve_image_by_id root info id = raises e)
  ∧ ∀ pk, get_database_id info id "ProductImage" = inr pk →
      (∀ image, ProductFields.resolve_image_by_id root info id = returns image →
                image ∈ product_images (node root) ∧ models.ProductImage.id image = pk)
      ∧ (ProductFields.resolve_image_by_id root info id
         = raises (GraphQLError "Product image not found.")
         ↔ ∀ image, image ∈ product_images (node root) →
                    models.ProductImage.id image ≠ pk)
      ∧ (NoDup (models.ProductImage.id <$> product_images (node root)) →
         ∀ image, image ∈ product_images (node root) →
                  models.ProductImage.id image = pk →
                  ProductFields.resolve_image_by_id root info id = returns image).
Proof.
  unfold ProductFields.resolve_image_by_id. split.
  - by intros e ->.
  - intros pk ->. split; [| split].
    + intros image.
      destruct (get_by_pk _ pk) as [found | |] eqn:Hget; [| done | done].
      intros [= <-]. by apply get_by_pk_Got in Hget.
    + split.
      * destruct (get_by_pk _ pk) as [found | |] eqn:Hget; [done | | done].
        intros _. by apply get_by_pk_DoesNotExist.
      * intros Hnone.
        apply (get_by_pk_DoesNotExist (model := product_image_model)) in Hnone.
        by rewrite Hnone.
    + intros Hunique image Himage Hpk.
      by rewrite (get_by_pk_unique (model := product_image_model) _ pk image).
Qed.

End image_by_id.

Lemma image_by_id_finds_own_image_or_fails_witness :
  @ProductFields.resolve_image_by_id samples.managers samples.global_ids
    (Build_ChannelContext fixtures.sneakers None) (fixtures.request fixtures.customer)
    "ProductImage:32" = returns samples.side_view
  ∧ @ProductFields.resolve_image_by_id samples.managers samples.global_ids
      (Build_ChannelContext fixtures.sneakers None) (fixtures.request fixtures.customer)
      "ProductImage:99" = raises (GraphQLError "Product image not found.")
  ∧ @ProductFields.resolve_image_by_id samples.managers samples.global_ids
      (Build_ChannelContext fixtures.sneakers None) (fixtures.request fixtures.customer)
      "Product:1" = raises (GraphQLError "Must receive a ProductImage id.").
Proof.
  repeat apply conj.
  - destruct (@image_by_id_finds_own_image_or_fails samples.managers samples.global_ids
                (Build_ChannelContext fixtures.sneakers None)
                (fixtures.request fixtures.customer) "ProductImage:32") as [_ Hdecoded].
    destruct (Hdecoded 32) as (_ & _ & Hunique); [reflexivity |].
    apply Hunique; [| | reflexivity].
    + vm_compute. repeat constructor; rewrite ?elem_of_cons, ?elem_of_nil; intuition lia.
    + vm_compute. apply list_elem_of_further, list_elem_of_here.
  - destruct (@image_by_id_finds_own_image_or_fails samples.managers samples.global_ids
                (Build_ChannelContext fixtures.sneakers None)
                (fixtures.request fixtures.customer) "ProductImage:99") as [_ Hdecoded].
    destruct (Hdecoded 99) as (_ & Hmissing & _); [reflexivity |].
    apply Hmissing. intros image Himage.
    vm_compute in Himage. apply elem_of_cons in Himage as [-> | Himage]; [done |].
    apply elem_of_cons in Himage as [-> | Himage]; [done |].
    by apply elem_of_nil in Himage.
  - destruct (@image_by_id_finds_own_image_or_fails samples.managers samples.global_ids
                (Build_ChannelContext fixtures.sneakers None)
                (fixtures.request fixtures.customer) "Product:1") as [Hundecoded _].
    apply Hundecoded. reflexivity.
Defined.

(** ** Products of a category, a product type and a collection *)

Lemma descends_from_trans (a b c : models.Category.t) :
  descends_from a b → descends_from b c → descends_from a c.
Proof.
  intros Hab Hbc. induction Hbc as [b | b child c Hchild _ IH]; [done |].
  apply descends_child with child; [done | by apply IH].
Qed.

Lemma category_products_with_channel (db : Database) (root : models.Category.t)
    (info : ResolveInfo) (channel : string) :
  ∃ found,
    Category.resolve_products db root info (Some channel)
    = returns {| qs := found; qs_channel_slug := channel |}
    ∧ NoDup found
    ∧ ∀ p, p ∈ found ↔
        p ∈ products db
        ∧ published_in db channel p
        ∧ ∃ category,
            descends_from category root
            ∧ models.Product.category_id p = Some (models.Category.id category).
Proof.
  unfold Category.resolve_products.
  eexists. split; [reflexivity |]. split; [apply NoDup_remove_dups |].
  intros p. rewrite elem_of_remove_dups, list_elem_of_filter, elem_of_published,
    category_in_spec.
  split; [intros (Hbelow & Hrow & Hpublished) | intros (Hrow & Hpublished & Hbelow)];
    done.
Qed.

(** X10. Given a channel, [products] of a category never fails and never
    looks the default channel up: it returns, under the channel it was given
    (the empty string included, which is not taken for a missing channel),
    each product once that is published in that channel and sits in the
    category or below it. Leaving the channel out is the same as giving the
    slug of the configured default channel. *)
Theorem category_products_in_given_channel (db : Database) (root : models.Category.t)
    (info : ResolveInfo) (channel : string) :
  (∃ found,
     Category.resolve_products db root info (Some channel)
     = returns {| qs := found; qs_channel_slug := channel |}
     ∧ NoDup found
     ∧ ∀ p, p ∈ found ↔
         p ∈ products db
         ∧ published_in db channel p
         ∧ ∃ category,
             descends_from category root
             ∧ models.Product.category_id p = Some (models.Category.id category))
  ∧ (∀ default, default_channel db = Some default →
       Category.resolve_products db root info None
       = Category.resolve_products db root info (Some (models.Channel.slug default))).
Proof.
  split; [apply category_products_with_channel |].
  unfold Category.resolve_products, get_default_channel_or_graphql_error.
  by intros default ->.
Qed.

Lemma category_products_in_given_channel_witness :
  Category.resolve_products fixtures.db fixtures.apparel
    (fixtures.request fixtures.customer) None
  = Category.resolve_products fixtures.db fixtures.apparel
      (fixtures.request fixtures.customer) (Some "default-channel").
Proof.
  destruct (category_products_in_given_channel fixtures.db fixtures.apparel
              (fixtures.request fixtures.customer) "default-channel") as [_ Hdefault].
  apply (Hdefault {| models.Channel.id := 1; models.Channel.slug := "default-channel" |}).
  reflexivity.
Defined.

(** X11. The products of a category grow up the tree: every child listed by
    [children] lies below the category, and for a category below another,
    asked in the same channel, every product returned for the lower one is
    returned for the upper one, under the same channel slug. *)
Theorem category_products_grow_up_the_tree (db : Database)
    (root child : models.Category.t) (info : ResolveInfo) (channel : option string)
    (upper lower : ChannelQsContext models.Product.t) :
  (child ∈ CategoryFields.resolve_children root info → descends_from child root)
  ∧ (descends_from child root →
     outcome (Category.resolve_products db root info channel) = inr upper →
     outcome (Category.resolve_products db child info channel) = inr lower →
     qs lower ⊆ qs upper ∧ qs_channel_slug lower = qs_channel_slug upper).
Proof.
  split.
  - intros Hchild. apply descends_child with child; [done | constructor].
  - intros Hbelow.
    assert (∀ slug p,
      p ∈ remove_dups (filter (Category.category_in
             (models.Category.get_descendants child true)) (published db slug)) →
      p ∈ remove_dups (filter (Category.category_in
             (models.Category.get_descendants root true)) (published db slug)))
      as Hgrow.
    { intros slug p. rewrite !elem_of_remove_dups, !list_elem_of_filter, !category_in_spec.
      intros [(category & Hcategory & Hp) Hrow]. split; [| done].
      exists category. split; [by apply descends_from_trans with child | done]. }
    unfold Category.resolve_products, get_default_channel_or_graphql_error.
    destruct channel as [slug |]; simpl.
    + intros [= <-] [= <-]. simpl. split; [intros p; apply Hgrow | done].
    + destruct (default_channel db) as [default |]; simpl; [| done].
      intros [= <-] [= <-]. simpl. split; [intros p; apply Hgrow | done].
Qed.

Lemma category_products_grow_up_the_tree_witness :
  fixtures.sneakers ∈
    match outcome (Category.resolve_products fixtures.db fixtures.apparel
                     (fixtures.request fixtures.customer) None) with
    | inr upper => qs upper
    | inl _ => []
    end.
Proof.
  destruct (category_products_grow_up_the_tree fixtures.db fixtures.apparel
              fixtures.shoes (fixtures.request fixtures.customer) None
              {| qs := [fixtures.sneakers]; qs_channel_slug := "default-channel" |}
              {| qs := [fixtures.sneakers]; qs_channel_slug := "default-channel" |})
    as [Hchild Hgrow].
  destruct Hgrow as [Hsubset _].
  - apply Hchild. apply list_elem_of_here.
  - vm_compute. reflexivity.
  - vm_compute. reflexivity.
  - apply Hsubset. apply list_elem_of_here.
Defined.

Section products_of_type_and_collection.
Context {managers : CatalogueManagers}.

(** X12. [products] of a product type and of a collection resolve the channel
    as the category does: a given channel is used as it is, a missing one is
    replaced by the slug of the default channel, and with none configured the
    field fails with the error of the lookup, nothing being queried. When it
    succeeds, the slug attached to the result is the slug the rows were asked
    for: those visible to the requester in that channel. *)
Theorem products_channel_is_given_or_default (db : Database)
    (product_type : models_more.ProductType.t) (collection : models.Collection.t)
    (info : ResolveInfo) (channel : option string) :
  (∀ slug,
     channel = Some slug
     ∨ (channel = None ∧ models.Channel.slug <$> default_channel db = Some slug) →
     ProductType.resolve_products db product_type info channel
     = returns {|
         qs := product_type_products_visible_to_user product_type
                 (user (context info)) slug;
         qs_channel_slug := slug |}
     ∧ Collection.resolve_products db collection info channel
       = returns {|
           qs := collection_products_sorted collection (user (context info)) slug;
           qs_channel_slug := slug |})
  ∧ (channel = None → default_channel db = None →
     ∃ message,
       ProductType.resolve_products db product_type info channel
       = raises (GraphQLError message)
       ∧ Collection.resolve_products db collection info channel
         = raises (GraphQLError message)).
Proof.
  unfold ProductType.resolve_products, Collection.resolve_products,
    get_default_channel_or_graphql_error.
  split.
  - intros slug [-> | [-> Hdefault]]; [done |].
    destruct (default_channel db) as [default |]; [| done].
    by injection Hdefault as <-.
  - intros -> ->. by eexists.
Qed.

End products_of_type_and_collection.

Lemma products_channel_is_given_or_default_witness :
  @ProductType.resolve_products samples.managers fixtures.db samples.footwear
    (fixtures.request fixtures.customer) None
  = returns {| qs := [fixtures.sneakers]; qs_channel_slug := "default-channel" |}
  ∧ ∃ message,
      @Collection.resolve_products samples.managers (unpublish_all
        {| products := []; product_channel_listings := []; default_channel := None |})
        samples.summer (fixtures.request fixtures.customer) None
      = raises (GraphQLError message).
Proof.
  split.
  - destruct (@products_channel_is_given_or_default samples.managers fixtures.db
                samples.footwear samples.summer (fixtures.request fixtures.customer) None)
      as [Hresolved _].
    destruct (Hresolved "default-channel") as [Htype _]; [right; split; reflexivity |].
    rewrite Htype. reflexivity.
  - destruct (@products_channel_is_given_or_default samples.managers
                (unpublish_all
                   {| products := []; product_channel_listings := [];
                      default_channel := None |})
                samples.footwear samples.summer (fixtures.request fixtures.customer) None)
      as [_ Hunconfigured].
    destruct Hunconfigured as (message & _ & Hcollection); [reflexivity | reflexivity |].
    by exists message.
Defined.

(** ** Availability of a product and the published flag *)

Lemma channel_listing_exists_unpublish_all (db : Database) (product : models.Product.t)
    (slug : string) :
  Product.channel_listing_exists (unpublish_all db) product slug
  = Product.channel_listing_exists db product slug.
Proof.
  unfold Product.channel_listing_exists. apply bool_decide_ext.
  unfold unpublish_all. simpl. rewrite Exists_fmap. done.
Qed.

Section availability_and_publication.
Context {warehouse_service : WarehouseService}.

(** X13. [isAvailable] of a product does not look at the published flag of
    the channel listing: withdrawing every listing from publication leaves it
    unchanged, so a product that is listed in the channel and in stock is
    available there although it is not published; nor does it look at the
    products table or at the default channel. *)
Theorem product_is_available_ignores_publication (db : Database) (root : Product.Root)
    (info : ResolveInfo) (other_products : list models.Product.t)
    (other_default : option models.Channel.t) :
  Product.resolve_is_available (unpublish_all db) root info
  = Product.resolve_is_available db root info
  ∧ Product.resolve_is_available
      {| products := other_products;
         product_channel_listings := product_channel_listings db;
         default_channel := other_default |} root info
    = Product.resolve_is_available db root info
  ∧ (∀ slug, channel_slug root = Some slug → slug ≠ "" →
       listed_in db slug (node root) →
       is_product_in_stock (node root) (country (context info)) = true →
       Product.resolve_is_available (unpublish_all db) root info = returns (Some true)).
Proof.
  unfold Product.resolve_is_available. split; [| split].
  - by rewrite channel_listing_exists_unpublish_all.
  - reflexivity.
  - intros slug Hslug Hnonempty Hlisted Hstock.
    rewrite Hslug, (truthy_slug_true slug Hnonempty). simpl.
    rewrite channel_listing_exists_unpublish_all, Hstock.
    by rewrite (proj2 (channel_listing_exists_spec db (node root) slug) Hlisted).
Qed.

End availability_and_publication.

Lemma product_is_available_ignores_publication_witness :
  @Product.resolve_is_available fixtures.warehouse (unpublish_all fixtures.db)
    (Build_ChannelContext fixtures.sneakers (Some "default-channel"))
    (fixtures.request fixtures.customer)
  = returns (Some true)
  ∧ Category.resolve_products (unpublish_all fixtures.db) fixtures.apparel
      (fixtures.request fixtures.customer) None
    = returns {| qs := []; qs_channel_slug := "default-channel" |}.
Proof.
  split; [| vm_compute; reflexivity].
  destruct (@product_is_available_ignores_publication fixtures.warehouse fixtures.db
              (Build_ChannelContext fixtures.sneakers (Some "default-channel"))
              (fixtures.request fixtures.customer) [] None) as (_ & _ & Hlisted).
  apply (Hlisted "default-channel"); [reflexivity | discriminate | | reflexivity].
  eexists. split; [apply list_elem_of_here | done].
Defined.

(** ** Fetching a collection as a node *)

Section collection_node.
Context {managers : CatalogueManagers}.

(** X14. [get_node] of a collection hands back only what the requester may
    see: a collection it returns is visible to the requester and has the
    identifier asked for; it returns nothing exactly when no collection
    visible to the requester has the identifier, and nothing at all outside a
    request; and when the identifiers of the visible collections are
    distinct, the visible collection with the identifier is the one
    returned. *)
Theorem collection_node_is_visible_or_none (context : RequestContext) (id : Z) :
  (∀ c, Collection.get_node (Some context) id = Some c →
        c ∈ collections_visible_to_user (user context) ∧ models.Collection.id c = id)
  ∧ (Collection.get_node (Some context) id = None
     ↔ ∀ c, c ∈ collections_visible_to_user (user context) →
            models.Collection.id c ≠ id)
  ∧ (NoDup (models.Collection.id <$> collections_visible_to_user (user context)) →
     ∀ c, c ∈ collections_visible_to_user (user context) →
          models.Collection.id c = id →
          Collection.get_node (Some context) id = Some c)
  ∧ Collection.get_node None id = None.
Proof.
  unfold Collection.get_node. split; [| split; [| split]].
  - intros c Hhead. apply head_Some_elem_of, list_elem_of_filter in Hhead. tauto.
  - rewrite head_None. split.
    + intros Hnone c Hc Hid. by apply (filter_nil_not_elem_of _ _ c Hnone).
    + intros Hnone.
      destruct (filter _ _) as [| c rest] eqn:Hfilter; [done |].
      assert (c ∈ filter (λ c, models.Collection.id c = id)
                    (collections_visible_to_user (user context))) as Hc
        by (rewrite Hfilter; apply list_elem_of_here).
      apply list_elem_of_filter in Hc as [Hid Hc]. by destruct (Hnone c Hc).
  - intros Hunique c Hc Hid.
    by rewrite (filter_by_unique_pk (model := collection_model) _ id c).
  - reflexivity.
Qed.

End collection_node.

Lemma collection_node_is_visible_or_none_witness :
  @Collection.get_node samples.managers
    (Some (context (fixtures.request fixtures.staff))) 42 = Some samples.hidden
  ∧ @Collection.get_node samples.managers
      (Some (context (fixtures.request fixtures.customer))) 42 = None.
Proof.
  split.
  - destruct (@collection_node_is_visible_or_none samples.managers
                (context (fixtures.request fixtures.staff)) 42)
      as (_ & _ & Hunique & _).
    apply Hunique; [| | reflexivity].
    + vm_compute. repeat constructor; rewrite ?elem_of_cons, ?elem_of_nil; intuition lia.
    + vm_compute. apply list_elem_of_further, list_elem_of_here.
  - destruct (@collection_node_is_visible_or_none samples.managers
                (context (fixtures.request fixtures.customer)) 42)
      as (_ & Hnone & _).
    apply Hnone. intros c Hc. apply list_elem_of_singleton in Hc as ->. done.
Defined.

(** ** More fields behind the permission gate *)

Section other_gated_fields.
Context {managers : CatalogueManagers} {metadata_store : MetadataStore}
  {columns : MetadataColumns}.

(** X15. The available attributes of a product type and the private metadata
    of a product type, a collection and a category sit behind the same gate
    as the gated fields of variants and products: without the permission to
    manage products resolving them raises the authorization error naming that
    permission, and the unassigned attributes are not even queried; with it,
    the result is that of the wrapped resolver. *)
Theorem other_gated_fields_require_manage_products (g : GatedResolver) :
  g ∈ other_gated_resolvers →
  ∀ (args : Args g) (root : Root g) (info : ResolveInfo),
    (MANAGE_PRODUCTS ∉ effective_permissions (user (context info)) →
       resolver g args root info = raises (PermissionDenied MANAGE_PRODUCTS))
    ∧ (MANAGE_PRODUCTS ∈ effective_permissions (user (context info)) →
         resolver g args root info = wrapped g args root info).
Proof.
  intros Hgated args root info.
  unfold other_gated_resolvers in Hgated.
  repeat (apply elem_of_cons in Hgated as [-> | Hgated]);
    try (by apply elem_of_nil in Hgated);
    (split; intros Hperm;
      [by apply permission_required_denied | by apply permission_required_granted]).
Qed.

End other_gated_fields.

Lemma other_gated_fields_require_manage_products_witness :
  @ProductType.resolve_available_attributes samples.managers samples.footwear
    (fixtures.request fixtures.customer) []
  = raises (PermissionDenied MANAGE_PRODUCTS)
  ∧ @ProductType.resolve_available_attributes samples.managers samples.footwear
      (fixtures.request fixtures.staff) []
    = returns [].
Proof.
  pose proof (@other_gated_fields_require_manage_products samples.managers
                fixtures.metadata samples.columns
                {| field := "availableAttributes";
                   resolver := λ kwargs root info,
                     @ProductType.resolve_available_attributes samples.managers
                       root info kwargs;
                   wrapped :=
                     @ProductType.wrapped_resolve_available_attributes samples.managers |})
    as Hattributes.
  split.
  - apply (Hattributes (list_elem_of_here _ _) [] samples.footwear
             (fixtures.request fixtures.customer)).
    simpl. apply not_elem_of_nil.
  - destruct (Hattributes (list_elem_of_here _ _) [] samples.footwear
                (fixtures.request fixtures.staff)) as [_ Hgranted].
    simpl in Hgranted. rewrite Hgranted; [reflexivity | apply list_elem_of_here].
Defined.

Section costs.
Context {pricing_service : PricingService}.

(** X16. For a requester who may manage products, [purchaseCost] and [margin]
    of a product are the two halves of one costs computation: the purchase
    cost is its first component, and the start and stop of the margin are the
    two numbers of its second component, in that order. *)
Theorem purchase_cost_and_margin_are_one_computation (root : Product.Root)
    (info : ResolveInfo) :
  MANAGE_PRODUCTS ∈ effective_permissions (user (context info)) →
  ∃ purchase_cost margin,
    Product.resolve_purchase_cost root info = returns purchase_cost
    ∧ Product.resolve_margin root info = returns margin
    ∧ get_product_costs_data (node root)
      = (purchase_cost, (Margin.start margin, Margin.stop margin)).
Proof.
  intros Hperm. unfold Product.resolve_purchase_cost, Product.resolve_margin.
  rewrite !permission_required_granted by done.
  unfold Product.wrapped_resolve_purchase_cost, Product.wrapped_resolve_margin.
  destruct (get_product_costs_data (node root)) as [purchase_cost [start stop]].
  by eexists _, _.
Qed.

End costs.

Lemma purchase_cost_and_margin_are_one_computation_witness :
  ∃ purchase_cost margin,
    @Product.resolve_purchase_cost fixtures.pricing
      (Build_ChannelContext fixtures.sneakers None) (fixtures.request fixtures.staff)
    = returns purchase_cost
    ∧ @Product.resolve_margin fixtures.pricing
        (Build_ChannelContext fixtures.sneakers None) (fixtures.request fixtures.staff)
      = returns margin
    ∧ @get_product_costs_data fixtures.pricing fixtures.sneakers
      = (purchase_cost, (Margin.start margin, Margin.stop margin)).
Proof.
  apply (@purchase_cost_and_margin_are_one_computation fixtures.pricing
           (Build_ChannelContext fixtures.sneakers None) (fixtures.request fixtures.staff)).
  simpl. apply list_elem_of_here.
Defined.

(** X17. For a requester who may manage products, [digitalContent] of a
    variant that has no digital content is null, not a failure; for a variant
    that has one, it is that digital content. *)
Theorem digital_content_is_optional_relation (root : ProductVariant.Root)
    (info : ResolveInfo) :
  MANAGE_PRODUCTS ∈ effective_permissions (user (context info)) →
  ProductVariant.resolve_digital_content root info
  = returns match models.ProductVariant.digital_content (node root) with
            | Some pk => PyInstance "DigitalContent" pk
            | None => PyNone
            end.
Proof.
  intros Hperm. unfold ProductVariant.resolve_digital_content.
  rewrite permission_required_granted by done.
  unfold ProductVariant.wrapped_resolve_digital_content, Py.getattr. simpl.
  unfold models.ProductVariant.lookup. rewrite !decide_False by done.
  rewrite decide_True by done.
  by destruct (models.ProductVariant.digital_content (node root)).
Qed.

Lemma digital_content_is_optional_relation_witness :
  ProductVariant.resolve_digital_content
    (Build_ChannelContext fixtures.ebook None) (fixtures.request fixtures.staff)
  = returns (PyInstance "DigitalContent" 7)
  ∧ ProductVariant.resolve_digital_content
      (Build_ChannelContext fixtures.shirt None) (fixtures.request fixtures.staff)
    = returns PyNone.
Proof.
  split.
  - rewrite (digital_content_is_optional_relation
               (Build_ChannelContext fixtures.ebook None)
               (fixtures.request fixtures.staff)); [reflexivity |].
    simpl. apply list_elem_of_here.
  - rewrite (digital_content_is_optional_relation
               (Build_ChannelContext fixtures.shirt None)
               (fixtures.request fixtures.staff)); [reflexivity |].
    simpl. apply list_elem_of_here.
Defined.

(** ** A product and its category *)

Section category_round_trip.
Context {managers : CatalogueManagers}.

(** X18. A product and its category point at each other. When the loader
    answers the [category] of a product with the category that has the
    identifier asked for, a product of the database that is published in a
    channel is among the [products] of that category in that channel. A
    product without a category resolves [category] to null with nothing
    queued, and is among the products of no category. *)
Theorem product_is_among_products_of_its_category (db : Database) (root : Product.Root)
    (info : ResolveInfo) (channel : string) :
  (∀ (fetch : CatalogueBackend) (category : models.Category.t),
     (∀ id found, fetch (CategoryByIdLoader id) = Fulfilled (Some found) →
                  models.Category.id found = id) →
     deferred.resolves_to fetch (ProductFields.resolve_category root info)
     = Fulfilled (Some category) →
     node root ∈ products db →
     published_in db channel (node root) →
     ∃ found,
       Category.resolve_products db category info (Some channel)
       = returns {| qs := found; qs_channel_slug := channel |}
       ∧ node root ∈ found)
  ∧ (models.Product.category_id (node root) = None →
     ProductFields.resolve_category root info = deferred.returns None
     ∧ ∀ category found,
         Category.resolve_products db category info (Some channel)
         = returns {| qs := found; qs_channel_slug := channel |} →
         node root ∉ found).
Proof.
  split.
  - intros fetch category Hconsistent Hcategory Hrow Hpublished.
    destruct (category_products_with_channel db category info channel)
      as (found & Hfound & _ & Hmember).
    exists found. split; [done |]. apply Hmember. split; [done |]. split; [done |].
    exists category. split; [constructor |].
    unfold ProductFields.resolve_category, deferred.resolves_to in Hcategory.
    destruct (models.Product.category_id (node root)) as [id |]; simpl in Hcategory;
      [| done].
    destruct (fetch (CategoryByIdLoader id)) as [loaded |] eqn:Hloaded; [| done].
    injection Hcategory as ->. by rewrite (Hconsistent id category Hloaded).
  - intros Huncategorised. unfold ProductFields.resolve_category.
    rewrite Huncategorised. split; [done |].
    intros category found Hfound Hmember.
    destruct (category_products_with_channel db category info channel)
      as (found' & Hfound' & _ & Hmember').
    rewrite Hfound in Hfound'. injection Hfound' as <-.
    apply Hmember' in Hmember as (_ & _ & ? & _ & Hcategory). congruence.
Qed.

End category_round_trip.

Lemma product_is_among_products_of_its_category_witness :
  ∃ found,
    Category.resolve_products fixtures.db fixtures.shoes
      (fixtures.request fixtures.customer) (Some "default-channel")
    = returns {| qs := found; qs_channel_slug := "default-channel" |}
    ∧ fixtures.sneakers ∈ found.
Proof.
  destruct (product_is_among_products_of_its_category fixtures.db
              (Build_ChannelContext fixtures.sneakers None)
              (fixtures.request fixtures.customer) "default-channel")
    as [Hcategorised _].
  apply (Hcategorised samples.consistent_backend fixtures.shoes).
  - intros id found. simpl. unfold samples.consistent_backend.
    case_decide as Hid; [| done]. by intros [= <-].
  - reflexivity.
  - apply list_elem_of_here.
  - eexists. split; [apply list_elem_of_here | done].
Defined.
